(** * pythx command-line front end (src/pythx/cli/main.py)

    A shallow embedding of the console script: the offset-to-position
    resolver [get_source_location_by_offset], the credential reader
    [parse_config], the client recovery [recover_client], the listing
    commands [ps_core] / [ps] and the [report] command, followed by the
    properties of these functions.

    Python integers are unbounded, so they are [Z]. Text is [string]; one
    [ascii] stands for one character of a decoded [str]. *)

From Stdlib Require Import ZArith Lia Bool Ascii String List.
From Stdlib Require Import Floats.PrimFloat.
From stdpp Require Import base list gmap strings pretty.
Local Open Scope Z_scope.

(** ** Python values and builtins used by the script *)

Module Py.

(** The objects [json.load] can produce. A [dict] decoded from JSON has
    string keys; it is kept as an association list read by its first
    binding for a key. *)
#[local] Unset Elimination Schemes.
Inductive value : Type :=
| VNone
| VBool (b : bool)
| VInt (z : Z)
| VFloat (f : float)
| VStr (s : string)
| VList (l : list value)
| VDict (d : list (string * value)).
#[local] Set Elimination Schemes.

(** Exceptions that the modelled code can let escape. *)
Inductive exn : Type :=
| TypeError
| ValueError
| IndexError
| UnboundLocalError
| KeyError
| AttributeError
| FileNotFoundError
| JSONDecodeError
| Abort
| ServiceError (msg : string).

(** [bool(v)]: Python truthiness. *)
Definition truthy (v : value) : bool :=
  match v with
  | VNone => false
  | VBool b => b
  | VInt z => negb (z =? 0)
  | VFloat f => negb (PrimFloat.eqb f PrimFloat.zero)
  | VStr s => negb (String.eqb s "")
  | VList l => match l with [] => false | _ => true end
  | VDict d => match d with [] => false | _ => true end
  end.

(** [v == s] for a string literal [s]. *)
Definition eq_str (v : value) (s : string) : bool :=
  match v with
  | VStr t => String.eqb t s
  | _ => false
  end.

Definition dict_get (d : list (string * value)) (k : string) : option value :=
  snd <$> List.find (fun kv => String.eqb (fst kv) k) d.

(** [needle in hay] on strings: substring test. *)
Fixpoint str_contains (hay needle : string) : bool :=
  String.prefix needle hay ||
  match hay with
  | EmptyString => false
  | String _ rest => str_contains rest needle
  end.

(** [k in v] for a string [k]; [None] is the [TypeError] that Python raises
    when [v] is not a container ("argument of type ... is not iterable"). *)
Definition contains (v : value) (k : string) : option bool :=
  match v with
  | VDict d => Some (bool_decide (is_Some (dict_get d k)))
  | VList l => Some (existsb (fun x => eq_str x k) l)
  | VStr s => Some (str_contains s k)
  | VNone | VBool _ | VInt _ | VFloat _ => None
  end.

(** [type(v) == dict] *)
Definition is_dict (v : value) : bool :=
  match v with VDict _ => true | _ => false end.

(** [v[k]] for a string [k]: only a [dict] can be subscripted by a string. *)
Definition getitem (v : value) (k : string) : exn + value :=
  match v with
  | VDict d => match dict_get d k with Some x => inr x | None => inl KeyError end
  | _ => inl TypeError
  end.

(** [str(keys)] for a tuple of two or more plain strings. *)
Definition tuple_str (keys : list string) : string :=
  "(" +:+ String.concat ", " (List.map (fun k => "'" +:+ k +:+ "'") keys) +:+ ")".

(** [s.split(sep)] for a one-character separator. *)
Fixpoint split (sep : ascii) (s : string) : list string :=
  match s with
  | EmptyString => [EmptyString]
  | String c rest =>
      if Ascii.eqb c sep then EmptyString :: split sep rest
      else match split sep rest with
           | [] => [String c EmptyString]
           | h :: t => String c h :: t
           end
  end.

(** Characters that [int] skips around a literal: tab to carriage return
    and the space, and, beyond ASCII, the white space among the first 256
    code points, next line (133) and no-break space (160). The separators
    28..31 are not skipped. *)
Definition is_space (c : ascii) : bool :=
  let n := Z.of_N (N_of_ascii c) in
  ((9 <=? n) && (n <=? 13)) || (n =? 32) || (n =? 133) || (n =? 160).

Fixpoint lstrip (s : string) : string :=
  match s with
  | String c rest => if is_space c then lstrip rest else s
  | EmptyString => EmptyString
  end.

Fixpoint rstrip (s : string) : string :=
  match s with
  | EmptyString => EmptyString
  | String c rest =>
      match rstrip rest with
      | EmptyString => if is_space c then EmptyString else String c EmptyString
      | r => String c r
      end
  end.

Definition strip (s : string) : string := rstrip (lstrip s).

Definition digit_of (c : ascii) : option Z :=
  let n := Z.of_N (N_of_ascii c) in
  if (48 <=? n) && (n <=? 57) then Some (n - 48) else None.

(** Decimal digits, single underscores allowed between two digits. *)
Fixpoint int_digits (acc : Z) (after_digit : bool) (s : string) : option Z :=
  match s with
  | EmptyString => if after_digit then Some acc else None
  | String c rest =>
      match digit_of c with
      | Some d => int_digits (10 * acc + d) true rest
      | None =>
          if Ascii.eqb c "_" && after_digit then int_digits acc false rest
          else None
      end
  end.

(** [int(s)] in base ten; [None] is [ValueError]. *)
Definition int (s : string) : option Z :=
  match strip s with
  | String "+" rest => int_digits 0 false rest
  | String "-" rest => Z.opp <$> int_digits 0 false rest
  | t => int_digits 0 false t
  end.

(** [l[i]], negative indices counting from the end; [None] is
    [IndexError]. *)
Definition index {A} (l : list A) (i : Z) : option A :=
  let n := Z.of_nat (length l) in
  if 0 <=? i then l !! Z.to_nat i
  else if 0 <=? n + i then l !! Z.to_nat (n + i)
  else None.

(** [l[:k]]. *)
Definition slice_to {A} (l : list A) (k : Z) : list A :=
  if 0 <=? k then take (Z.to_nat k) l
  else take (Z.to_nat (Z.of_nat (length l) + k)) l.

(** [len(s)]. *)
Definition len (s : string) : Z := Z.of_nat (String.length s).

Definition newline : ascii := "010"%char.
Definition nl : string := String newline EmptyString.

(** The lines a text file object yields when iterated: each line keeps its
    terminator, a final line without terminator is yielded as it is, and an
    empty text yields nothing. The text is the one the text layer delivers,
    that is, decoded and with line endings already translated to the
    newline character. *)
Fixpoint iter_lines (text : string) : list string :=
  match text with
  | EmptyString => []
  | String c rest =>
      if Ascii.eqb c newline then nl :: iter_lines rest
      else match iter_lines rest with
           | [] => [String c EmptyString]
           | h :: t => String c h :: t
           end
  end.

End Py.

(** ** The world the script runs in

    Side effects are threaded through a state: text files by path, the
    process environment, the answers waiting at the terminal, the state of
    the remote service, and the trace of what the process has printed,
    logged and requested so far. *)

Inductive operation : Type :=
| OpLogin
| OpAnalysisList
| OpReport (uuid : string).

Inductive event : Type :=
| Echo (text : string)
| Prompted (text : string)
| LogError (text : string)
| Called (op : operation).

(** How a call ends: with a value, by [sys.exit(code)], or by an exception
    nobody catches. *)
Inductive result (A : Type) : Type :=
| Ok (a : A)
| SysExit (code : Z)
| Raise (e : Py.exn).
Arguments Ok {A} a.
Arguments SysExit {A} code.
Arguments Raise {A} e.

Record world (service : Type) : Type := World {
  files : gmap string string;
  environ : gmap string string;
  keyboard : list string;
  remote : service;
  trace : list event;
}.
Arguments World {service}.
Arguments files {service}.
Arguments environ {service}.
Arguments keyboard {service}.
Arguments remote {service}.
Arguments trace {service}.

Definition M (service A : Type) : Type := world service -> result A * world service.

(** Modelled from the spec: the client object of [pythx.api], which is not
    part of the console script. It carries the credentials it was built
    with and the tokens, which remote calls update. *)
Record Client : Type := mkClient {
  eth_address : Py.value;
  password : Py.value;
  access_token : Py.value;
  refresh_token : Py.value;
  staging : bool;
}.

(** Modelled from the spec: one entry of the analysis-list response, with
    the three fields the listing commands display. *)
Record Analysis : Type := mkAnalysis {
  uuid : Py.value;
  status : Py.value;
  submitted_at : Py.value;
}.

(** Modelled from the spec: the analysis-list response. *)
Record AnalysisList : Type := mkAnalysisList {
  analyses : list Analysis;
}.

(** Modelled from the spec: an issue of a report; [locations] holds the
    [source_map] string of each location. *)
Record Issue : Type := mkIssue {
  locations : list string;
  swc_title : Py.value;
  severity : Py.value;
  description_short : Py.value;
}.

(** Modelled from the spec: the report response. An absent source list
    and an empty one are both falsy and are not told apart. *)
Record Report : Type := mkReport {
  issues : list Issue;
  source_list : list string;
}.

(** The tuple [report] stores for an issue. *)
Definition row : Type := Z * Z * Py.value * Py.value * Py.value.

(** The local variables of [report] that survive from one loop iteration
    to the next; [None] is a name not yet bound. *)
Record locals : Type := mkLocals {
  filename : option string;
  line : option Z;
  column : option Z;
}.

Definition CONFIG_KEYS : list string := ["access"; "refresh"; "username"; "password"].

Definition PLACEHOLDER : string := "0x0000000000000000000000000000000000000000".

Definition GUIDANCE : string :=
  "This functionality is only available to registered users. "
  +:+ "Head over to https://mythx.io/ and register a free account to "
  +:+ "list your past analyses. Alternatively, you can look up the "
  +:+ "status of a specific job by calling 'pythx status <uuid>'.".

Definition REPORT_HEADERS : list string :=
  ["Line"; "Column"; "SWC Title"; "Severity"; "Short Description"].

(** ** String methods used by the submission command *)

Module PyText.

(** The characters [str.isspace] accepts among the first 256 code points. *)
Definition is_whitespace (c : ascii) : bool :=
  let n := Z.of_N (N_of_ascii c) in
  ((9 <=? n) && (n <=? 13)) || ((28 <=? n) && (n <=? 32)) || (n =? 133) || (n =? 160).

Fixpoint lstrip (s : string) : string :=
  match s with
  | String c rest => if is_whitespace c then lstrip rest else s
  | EmptyString => EmptyString
  end.

Fixpoint rstrip (s : string) : string :=
  match s with
  | EmptyString => EmptyString
  | String c rest =>
      match rstrip rest with
      | EmptyString => if is_whitespace c then EmptyString else String c EmptyString
      | r => String c r
      end
  end.

(** [s.strip()] *)
Definition strip (s : string) : string := rstrip (lstrip s).

(** What a file opened with the default [newline=None] delivers for
    content whose bytes decode one to one: a carriage return followed by a
    line feed, and a carriage return alone, are read as one newline. *)
Fixpoint universal_newlines (raw : string) : string :=
  match raw with
  | EmptyString => EmptyString
  | String c rest =>
      if Ascii.eqb c "013" then
        match rest with
        | String c' rest' =>
            if Ascii.eqb c' Py.newline then String Py.newline (universal_newlines rest')
            else String Py.newline (universal_newlines rest)
        | EmptyString => Py.nl
        end
      else String c (universal_newlines rest)
  end.

(** [bool(o)] for an option of the command line that is a string or
    [None]. *)
Definition given (o : option string) : bool :=
  match o with
  | Some s => negb (String.eqb s "")
  | None => false
  end.

End PyText.

Section Cli.

Context {service : Type}.

(** The collaborators outside the script: the JSON codec, the table
    renderer and the remote operations of the client. A remote operation
    answers from the service state and returns the client with its tokens
    as the call left them. *)
Variable json_loads : string -> option Py.value.
Variable json_dumps : Py.value -> string.
Variable tabulate : list string -> list (list Py.value) -> string.
Variable api_login : Client -> service -> result Client * service.
Variable api_analysis_list : Client -> service -> result (Client * AnalysisList) * service.
Variable api_report : Client -> string -> service -> result (Client * Report) * service.

#[global] Instance M_ret : MRet (M service) := fun A a w => (Ok a, w).

#[global] Instance M_bind : MBind (M service) := fun A B k m w =>
  match m w with
  | (Ok a, w') => k a w'
  | (SysExit code, w') => (SysExit code, w')
  | (Raise e, w') => (Raise e, w')
  end.

Definition emit (e : event) : M service unit := fun w =>
  (Ok tt, World (files w) (environ w) (keyboard w) (remote w) (trace w ++ [e])).

(** [click.echo] *)
Definition echo (text : string) : M service unit := emit (Echo text).

(** [LOGGER.error] *)
Definition log_error (text : string) : M service unit := emit (LogError text).

(** [sys.exit] *)
Definition sys_exit {A} (code : Z) : M service A := fun w => (SysExit code, w).

Definition raise {A} (e : Py.exn) : M service A := fun w => (Raise e, w).

Definition or_raise {A} (o : option A) (e : Py.exn) : M service A :=
  match o with
  | Some a => mret a
  | None => raise e
  end.

Definition getitem (v : Py.value) (k : string) : M service Py.value :=
  match Py.getitem v k with
  | inr x => mret x
  | inl e => raise e
  end.

(** [open(path).read()] in text mode. *)
Definition read_text (path : string) : M service string := fun w =>
  match files w !! path with
  | Some text => (Ok text, w)
  | None => (Raise Py.FileNotFoundError, w)
  end.

(** [open(path, "w+")] followed by a write of [text]. *)
Definition write_text (path text : string) : M service unit := fun w =>
  (Ok tt, World (<[path := text]> (files w)) (environ w) (keyboard w) (remote w) (trace w)).

(** [path.isfile] *)
Definition isfile (path : string) : M service bool := fun w =>
  (Ok (bool_decide (is_Some (files w !! path))), w).

(** [environ.get] *)
Definition environ_get (name : string) : M service (option string) := fun w =>
  (Ok (environ w !! name), w).

(** [click.prompt] with a default: shows the prompt, then takes the next
    answer typed at the terminal, the default when the answer is empty;
    [Abort] at end of input. *)
Definition prompt (text default : string) : M service string := fun w =>
  let w := World (files w) (environ w) (keyboard w) (remote w) (trace w ++ [Prompted text]) in
  match keyboard w with
  | [] => (Raise Py.Abort, w)
  | answer :: rest =>
      (Ok (if String.eqb answer "" then default else answer),
       World (files w) (environ w) rest (remote w) (trace w))
  end.

(** A request to the remote service: recorded in the trace, then answered
    by the service, which may change its own state. *)
Definition request {A} (op : operation)
    (serve : service -> result A * service) : M service A := fun w =>
  let '(r, s') := serve (remote w) in
  (r, World (files w) (environ w) (keyboard w) s' (trace w ++ [Called op])).

(** *** Credentials *)

(** [all(k in config for k in keys)] *)
Fixpoint all_in (config : Py.value) (keys : list string) : M service bool :=
  match keys with
  | [] => mret true
  | k :: ks =>
      present ← or_raise (Py.contains config k) Py.TypeError;
      if present : bool then all_in config ks else mret false
  end.

Definition parse_config (config_path : string) (tokens_required : bool)
    : M service Py.value :=
  text ← read_text config_path;
  config ← or_raise (json_loads text) Py.JSONDecodeError;
  keys_present ← all_in config CONFIG_KEYS;
  if negb (Py.is_dict config && keys_present) then
    echo ("Malformed config file at " +:+ config_path
          +:+ " doesn't contain required keys " +:+ Py.tuple_str CONFIG_KEYS);;
    sys_exit 1
  else
    tokens_missing ←
      (if tokens_required then
         access ← getitem config "access";
         if Py.truthy access then
           refresh ← getitem config "refresh";
           mret (negb (Py.truthy refresh))
         else mret true
       else mret false);
    if tokens_missing : bool then
      echo ("Malformed config file at " +:+ config_path
            +:+ " does not contain access and refresh token");;
      sys_exit 1
    else mret config.

Definition update_config (config_path : string)
    (username password access refresh : Py.value) : M service unit :=
  write_text config_path
    (json_dumps (Py.VDict [("username", username); ("password", password);
                           ("access", access); ("refresh", refresh)])).

(** [environ.get(name) or click.prompt(text, default=default)] *)
Definition environ_or_prompt (name text default : string) : M service string :=
  from_env ← environ_get name;
  match from_env with
  | Some v => if String.eqb v "" then prompt text default else mret v
  | None => prompt text default
  end.

Definition recover_client (config_path : string) (staging exit_on_missing : bool)
    : M service (option Client) :=
  present ← isfile config_path;
  if negb present then
    if exit_on_missing then mret None
    else
      eth_address ← environ_or_prompt "PYTHX_USERNAME"
                      "Please enter your Ethereum address" PLACEHOLDER;
      password ← environ_or_prompt "PYTHX_PASSWORD"
                   "Please enter your MythX password" "trial";
      let c := mkClient (Py.VStr eth_address) (Py.VStr password) Py.VNone Py.VNone staging in
      c ← request OpLogin (api_login c);
      update_config config_path (Py.VStr eth_address) (Py.VStr password)
        (access_token c) (refresh_token c);;
      mret (Some c)
  else
    config ← parse_config config_path true;
    username ← getitem config "username";
    password ← getitem config "password";
    access ← getitem config "access";
    refresh ← getitem config "refresh";
    mret (Some (mkClient username password access refresh staging)).

(** *** Listing *)

Definition ps_core (config : string) (staging : bool) (number : Z)
    : M service AnalysisList :=
  recovered ← recover_client config staging false;
  c ← or_raise recovered Py.AttributeError;
  if Py.eq_str (eth_address c) PLACEHOLDER then
    echo GUIDANCE;;
    sys_exit 0
  else
    '(c, resp) ← request OpAnalysisList (api_analysis_list c);
    let resp := mkAnalysisList (Py.slice_to (analyses resp) (number + 1)) in
    update_config config (eth_address c) (password c) (access_token c) (refresh_token c);;
    mret resp.

Definition ps (config : string) (staging : bool) (number : Z) : M service unit :=
  resp ← ps_core config staging number;
  let data := List.map (fun a => [uuid a; status a; submitted_at a]) (analyses resp) in
  echo (tabulate [] data).

(** *** Offset-to-position resolver *)

(** The loop of [get_source_location_by_offset] over the remaining lines,
    with the loop-carried [overall] and [line_ctr]; [None] when the lines
    are exhausted without a return. *)
Fixpoint scan_lines (lines : list string) (overall line_ctr offset : Z)
    : option (Z * Z) :=
  match lines with
  | [] => None
  | line :: rest =>
      let line_ctr := line_ctr + 1 in
      let overall := overall + Py.len line in
      if offset <=? overall then Some (line_ctr, overall - offset)
      else scan_lines rest overall line_ctr offset
  end.

Definition get_source_location_by_offset (filename : string) (offset : Z)
    : M service (Z * Z) :=
  text ← read_text filename;
  match scan_lines (Py.iter_lines text) 0 0 offset with
  | Some position => mret position
  | None =>
      log_error ("Error finding the source location in " +:+ filename
                 +:+ " for offset " +:+ pretty offset);;
      sys_exit 1
  end.

(** *** Report *)

(** The inner loop of [report] over the split source maps of one issue. *)
Fixpoint resolve_locations (sources : list string) (source_locs : list (list string))
    (vars : locals) : M service locals :=
  match source_locs with
  | [] => mret vars
  | [offset; _; file_idx] :: rest =>
      match sources with
      | _ :: _ =>
          idx ← or_raise (Py.int file_idx) Py.ValueError;
          name ← or_raise (Py.index sources idx) Py.IndexError;
          off ← or_raise (Py.int offset) Py.ValueError;
          '(l, c) ← get_source_location_by_offset name off;
          resolve_locations sources rest (mkLocals (Some name) (Some l) (Some c))
      | [] =>
          resolve_locations sources rest (mkLocals (Some "Unknown") (line vars) (column vars))
      end
  | _ :: _ => raise Py.ValueError
  end.

(** [file_to_issue[name].append(r)] on the insertion-ordered mapping. *)
Fixpoint append_row (name : string) (r : row) (file_to_issue : list (string * list row))
    : list (string * list row) :=
  match file_to_issue with
  | [] => [(name, [r])]
  | (k, rows) :: others =>
      if String.eqb k name then (k, rows ++ [r]) :: others
      else (k, rows) :: append_row name r others
  end.

(** The outer loop of [report] over the issues. *)
Fixpoint aggregate (sources : list string) (todo : list Issue) (vars : locals)
    (file_to_issue : list (string * list row)) : M service (list (string * list row)) :=
  match todo with
  | [] => mret file_to_issue
  | issue :: rest =>
      let source_locs := List.map (Py.split ":") (locations issue) in
      vars ← resolve_locations sources source_locs vars;
      name ← or_raise (filename vars) Py.UnboundLocalError;
      l ← or_raise (line vars) Py.UnboundLocalError;
      c ← or_raise (column vars) Py.UnboundLocalError;
      aggregate sources rest vars
        (append_row name (l, c, swc_title issue, severity issue, description_short issue)
           file_to_issue)
  end.

Definition row_cells (r : row) : list Py.value :=
  let '(l, c, title, sev, short) := r in [Py.VInt l; Py.VInt c; title; sev; short].

Fixpoint render (file_to_issue : list (string * list row)) : M service unit :=
  match file_to_issue with
  | [] => mret tt
  | (name, data) :: others =>
      echo ("Report for " +:+ name);;
      echo (tabulate REPORT_HEADERS (List.map row_cells data));;
      render others
  end.

Definition report (config : string) (staging : bool) (uuid : string) : M service unit :=
  recovered ← recover_client config staging false;
  c ← or_raise recovered Py.AttributeError;
  '(c, resp) ← request (OpReport uuid) (api_report c uuid);
  file_to_issue ← aggregate (source_list resp) (issues resp) (mkLocals None None None) [];
  render file_to_issue;;
  update_config config (eth_address c) (password c) (access_token c) (refresh_token c).

(** *** Session commands and submission *)

(** Further collaborators: [str.format] on one value, [path.abspath], and
    the logout and analyze operations of the client. *)
Variable str_of : Py.value -> string.
Variable abspath : string -> string.
Variable api_logout : Client -> service -> result unit * service.
Variable api_analyze :
  Client -> option string -> list (string * string) -> service
  -> result (Client * Py.value) * service.

(** A request answered by the service that leaves no entry in the trace;
    the trace names the login, listing and report operations only. *)
Definition call {A} (serve : service -> result A * service) : M service A := fun w =>
  let '(r, s') := serve (remote w) in
  (r, World (files w) (environ w) (keyboard w) s' (trace w)).

(** [os.remove] *)
Definition os_remove (path : string) : M service unit := fun w =>
  match files w !! path with
  | Some _ =>
      (Ok tt, World (delete path (files w)) (environ w) (keyboard w) (remote w) (trace w))
  | None => (Raise Py.FileNotFoundError, w)
  end.

(** [LOGGER.debug]: a debug record is handed to the logging module, which
    shows it only when it was configured with PYTHX_DEBUG; the trace keeps
    printed text, error records and requests, so the world stays as it
    is. *)
Definition log_debug (text : string) : M service unit := mret tt.

Definition login (config : string) (staging : bool) : M service unit :=
  recovered ← recover_client config staging false;
  c ← or_raise recovered Py.AttributeError;
  c ← request OpLogin (api_login c);
  log_debug ("Access token " +:+ str_of (access_token c) +:+ Py.nl
             +:+ "Refresh token: " +:+ str_of (refresh_token c));;
  echo ("Successfully logged in as " +:+ str_of (eth_address c));;
  update_config config (eth_address c) (password c) (access_token c) (refresh_token c).

Definition logout (config : string) (staging : bool) : M service unit :=
  recovered ← recover_client config staging true;
  match recovered with
  | None =>
      echo "You are already logged out.";;
      sys_exit 0
  | Some c =>
      os_remove config;;
      call (api_logout c);;
      echo "Successfully logged out"
  end.

(** The sources handed to [analyze] are kept as pairs of a file name and
    its source text. *)
Definition check (config : string) (staging : bool)
    (bytecode source bytecode_file source_file : option string) : M service unit :=
  recovered ← recover_client config staging false;
  c ← or_raise recovered Py.AttributeError;
  let bytecode_f := if PyText.given bytecode then bytecode else None in
  let sources_f :=
    match source with
    | Some text => if PyText.given source then [("cli-src.sol", text)] else []
    | None => []
    end in
  bytecode_f ←
    (match bytecode_file with
     | Some name =>
         if PyText.given bytecode_file then
           text ← read_text name;
           mret (Some (PyText.strip text))
         else mret bytecode_f
     | None => mret bytecode_f
     end);
  sources_f ←
    (match source_file with
     | Some name =>
         if PyText.given source_file then
           text ← read_text name;
           mret [(abspath name, PyText.strip text)]
         else mret sources_f
     | None => mret sources_f
     end);
  '(c, job) ← call (api_analyze c bytecode_f sources_f);
  echo ("Analysis submitted as job " +:+ str_of job);;
  update_config config (eth_address c) (password c) (access_token c) (refresh_token c).

End Cli.

(** ** Measures used to state the resolver's contract *)

(** Characters in the first [k] lines. *)
Definition cumulative (lines : list string) (k : nat) : Z :=
  foldr (fun l acc => Py.len l + acc) 0 (take k lines).

(** The [n]-th line, counted from one, of a text. *)
Definition nth_line (text : string) (n : Z) : option string :=
  if 1 <=? n then Py.iter_lines text !! Z.to_nat (n - 1) else None.

(** Rows recorded in the per-file mapping of [report]. *)
Definition row_count (file_to_issue : list (string * list row)) : nat :=
  foldr (fun kv acc => (length (snd kv) + acc)%nat) 0%nat file_to_issue.

(** The world after the process has added [events] to its trace. *)
Definition logged {service} (w : world service) (events : list event) : world service :=
  World (files w) (environ w) (keyboard w) (remote w) (trace w ++ events).

(** What the resolver logs when it gives up. *)
Definition not_found (name : string) (offset : Z) : event :=
  LogError ("Error finding the source location in " +:+ name
            +:+ " for offset " +:+ pretty offset).

(** The values on which [k in v] is defined for a string [k]. *)
Definition container (v : Py.value) : bool :=
  match v with
  | Py.VDict _ | Py.VList _ | Py.VStr _ => true
  | _ => false
  end.

(** [k in v], read as false where it is not defined. *)
Definition has_key (v : Py.value) (k : string) : bool :=
  match Py.contains v k with
  | Some present => present
  | None => false
  end.

(** The two diagnostics of [parse_config]. *)
Definition keys_diagnostic (path : string) : event :=
  Echo ("Malformed config file at " +:+ path
        +:+ " doesn't contain required keys "
        +:+ "('access', 'refresh', 'username', 'password')").

Definition tokens_diagnostic (path : string) : event :=
  Echo ("Malformed config file at " +:+ path
        +:+ " does not contain access and refresh token").

(** The rows [ps] hands to the table renderer. *)
Definition listing (shown : list Analysis) : list (list Py.value) :=
  List.map (fun a => [uuid a; status a; submitted_at a]) shown.

(** A computation is quiet when, whatever way it ends, the events it adds
    to the trace include no call of the analysis-list operation. *)
Definition quiet {service A} (m : M service A) : Prop :=
  forall w r w1, m w = (r, w1) ->
    exists events, trace w1 = trace w ++ events /\ Called OpAnalysisList ∉ events.

(** The credential file [update_config] writes for a client. *)
Definition saved (json_dumps : Py.value -> string) (c : Client) : string :=
  json_dumps (Py.VDict [("username", eth_address c); ("password", password c);
                        ("access", access_token c); ("refresh", refresh_token c)]).

(** The world after an answered analysis-list request for [c'] has been
    followed by the rewrite of the credential file. *)
Definition listed {service} (json_dumps : Py.value -> string) (config : string)
    (c' : Client) (s' : service) (w : world service) : world service :=
  World (<[config := saved json_dumps c']> (files w)) (environ w) (keyboard w) s'
    (trace w ++ [Called OpAnalysisList]).

(** ** Concrete collaborators for the worked examples *)

Module Fixture.

Definition dq : string := String "034"%char EmptyString.

(** A JSON encoder for documents whose strings need no escaping; floats do
    not occur in the examples and are written as NaN. *)
Fixpoint dumps (v : Py.value) : string :=
  match v with
  | Py.VNone => "null"
  | Py.VBool true => "true"
  | Py.VBool false => "false"
  | Py.VInt z => pretty z
  | Py.VFloat _ => "NaN"
  | Py.VStr s => dq +:+ s +:+ dq
  | Py.VList l =>
      "[" +:+ (fix items (l : list Py.value) : string :=
                 match l with
                 | [] => ""
                 | x :: rest =>
                     dumps x +:+ match rest with [] => "" | _ => ", " +:+ items rest end
                 end) l +:+ "]"
  | Py.VDict d =>
      "{" +:+ (fix items (d : list (string * Py.value)) : string :=
                 match d with
                 | [] => ""
                 | (k, x) :: rest =>
                     dq +:+ k +:+ dq +:+ ": " +:+ dumps x
                     +:+ match rest with [] => "" | _ => ", " +:+ items rest end
                 end) d +:+ "}"
  end.

Definition credentials (username access refresh : string) : Py.value :=
  Py.VDict [("username", Py.VStr username); ("password", Py.VStr "trial");
            ("access", Py.VStr access); ("refresh", Py.VStr refresh)].

Definition alice : string := "0x1111111111111111111111111111111111111111".

Definition registered : Py.value := credentials alice "tok-a" "tok-r".
Definition trial : Py.value := credentials PLACEHOLDER "tok-a" "tok-r".
Definition no_refresh : Py.value :=
  Py.VDict [("username", Py.VStr alice); ("password", Py.VStr "trial");
            ("access", Py.VStr "tok-a")].
Definition empty_access : Py.value := credentials alice "" "tok-r".

(** The decoder: the inverse of [dumps] on the documents of the examples,
    a decode error on any other text. *)
Definition loads (text : string) : option Py.value :=
  List.find (fun v => String.eqb (dumps v) text)
    [Py.VNone; Py.VInt 5; registered; trial; no_refresh; empty_access].

Definition cell (v : Py.value) : string :=
  match v with
  | Py.VStr s => s
  | other => dumps other
  end.

(** A plain renderer: cells separated by bars, one row per line. *)
Definition tabulate (headers : list string) (rows : list (list Py.value)) : string :=
  String.concat Py.nl
    (List.map (String.concat " | ") (headers :: List.map (List.map cell) rows)).

Definition job (n : Z) : Analysis :=
  mkAnalysis (Py.VStr ("job-" +:+ pretty n)) (Py.VStr "Finished") (Py.VStr "2019-03-01").

Definition jobs : list Analysis := List.map job [1; 2; 3; 4; 5].

Definition finding : Issue :=
  mkIssue ["4:1:0"; "5:1:0"] (Py.VStr "Reentrancy") (Py.VStr "High")
    (Py.VStr "external call").

Definition abc_def : string := "abc" +:+ Py.nl +:+ "def" +:+ Py.nl.

(** A service without state of its own that accepts every call. *)
Definition login (c : Client) (s : unit) : result Client * unit :=
  (Ok (mkClient (eth_address c) (password c) (Py.VStr "tok-a") (Py.VStr "tok-r")
         (staging c)), s).

Definition analysis_list (c : Client) (s : unit)
    : result (Client * AnalysisList) * unit :=
  (Ok (c, mkAnalysisList jobs), s).

Definition fetch_report (c : Client) (uuid : string) (s : unit)
    : result (Client * Report) * unit :=
  (Ok (c, mkReport [finding] ["a.sol"]), s).

(** A world with the given files, nothing in the environment, nothing
    typed, and an empty trace. *)
Definition booted (fs : gmap string string) : world unit := World fs ∅ [] tt [].

Definition sources : gmap string string :=
  {[ "a.sol" := abc_def; "empty.sol" := ""; "one.sol" := "abc" +:+ Py.nl ]}.

Definition with_config (config : Py.value) : gmap string string :=
  <[ "pythx.json" := dumps config ]> sources.

End Fixture.

(** ** Further measures and collaborators *)

(** The object [update_config] encodes from its four arguments. *)
Definition record_of (username pass access refresh : Py.value) : Py.value :=
  Py.VDict [("username", username); ("password", pass);
            ("access", access); ("refresh", refresh)].

(** The world after [update_config] has written the credential file. *)
Definition updated {service} (json_dumps : Py.value -> string) (path : string)
    (username pass access refresh : Py.value) (w : world service) : world service :=
  World (<[path := json_dumps (record_of username pass access refresh)]> (files w))
    (environ w) (keyboard w) (remote w) (trace w).

(** The world after the service has answered a request for [op]. *)
Definition answered {service} (op : operation) (s' : service) (w : world service)
    : world service :=
  World (files w) (environ w) (keyboard w) s' (trace w ++ [Called op]).

(** The world after the service has answered a request that the trace
    does not record. *)
Definition served {service} (s' : service) (w : world service) : world service :=
  World (files w) (environ w) (keyboard w) s' (trace w).

(** The world after [os.remove]. *)
Definition removed {service} (path : string) (w : world service) : world service :=
  World (delete path (files w)) (environ w) (keyboard w) (remote w) (trace w).

(** The file names under which [report] has recorded rows, in order. *)
Definition file_names (file_to_issue : list (string * list row)) : list string :=
  List.map fst file_to_issue.

(** A source map that splits into exactly three fields. *)
Definition three_fields (source_map : string) : bool :=
  match Py.split ":" source_map with
  | [_; _; _] => true
  | _ => false
  end.

(** An event that is an error record of the logger. *)
Definition is_log_error (e : event) : Prop :=
  match e with
  | LogError _ => True
  | _ => False
  end.

(** What [environ.get(name) or click.prompt(..., default=default)] yields,
    read off the environment and the answers waiting at the terminal,
    together with the answers that remain; [None] when an answer is needed
    and none is left. *)
Definition answer_for (name default : string) (env : gmap string string)
    (keys : list string) : option (string * list string) :=
  let typed :=
    match keys with
    | [] => None
    | answer :: rest => Some (if String.eqb answer "" then default else answer, rest)
    end in
  match env !! name with
  | Some v => if String.eqb v "" then typed else Some (v, keys)
  | None => typed
  end.

(** A computation that only reads and logs errors: however it ends, the
    files and the service are as before and the events it added are error
    records. *)
Definition errors_only {service A} (m : M service A) : Prop :=
  forall w r w1, m w = (r, w1) ->
    files w1 = files w /\ remote w1 = remote w
    /\ exists events, trace w1 = trace w ++ events /\ Forall is_log_error events.

Module Scenario.

(** [str.format] on the values of the examples. *)
Definition str_of (v : Py.value) : string := Fixture.cell v.

Definition abspath (name : string) : string := "/work/" +:+ name.

(** Remote operations over any service state. *)
Definition login_ok {S} (c : Client) (s : S) : result Client * S :=
  (Ok (mkClient (eth_address c) (password c) (Py.VStr "tok-a") (Py.VStr "tok-r")
         (staging c)), s).

Definition login_down {S} (c : Client) (s : S) : result Client * S :=
  (Raise (Py.ServiceError "unreachable"), s).

Definition list_down (c : Client) (s : unit)
    : result (Client * AnalysisList) * unit :=
  (Raise (Py.ServiceError "unreachable"), s).

Definition logout_ok (c : Client) (s : unit) : result unit * unit := (Ok tt, s).

Definition logout_down (c : Client) (s : unit) : result unit * unit :=
  (Raise (Py.ServiceError "unreachable"), s).

(** A service whose state is the list of submissions it has received. *)
Definition submission : Type := option string * list (string * string).

Definition analyze (c : Client) (bytecode : option string)
    (sources : list (string * string)) (s : list submission)
    : result (Client * Py.value) * list submission :=
  (Ok (c, Py.VStr "job-7"), s ++ [(bytecode, sources)]).

Definition fetch_unmapped (c : Client) (uuid : string) (s : unit)
    : result (Client * Report) * unit :=
  (Ok (c, mkReport [Fixture.finding] []), s).

Definition far_issue : Issue :=
  mkIssue ["99:1:0"] (Py.VStr "Reentrancy") (Py.VStr "High") (Py.VStr "external call").

Definition fetch_beyond (c : Client) (uuid : string) (s : unit)
    : result (Client * Report) * unit :=
  (Ok (c, mkReport [far_issue] ["a.sol"]), s).

Definition client (username : string) : Client :=
  mkClient (Py.VStr username) (Py.VStr "trial") (Py.VStr "tok-a") (Py.VStr "tok-r") false.

Definition with_bytecode : gmap string string :=
  <[ "code.bin" := " 0x6080 " +:+ Py.nl ]> (Fixture.with_config Fixture.registered).

(** Worlds of the examples: with stored credentials, without any, with
    both environment variables set, with two empty answers waiting at the
    terminal, and with a bytecode file next to the stored credentials. *)
Definition home : world unit := Fixture.booted (Fixture.with_config Fixture.registered).

Definition fresh : world unit := Fixture.booted Fixture.sources.

Definition unattended : world unit :=
  World Fixture.sources
    {[ "PYTHX_USERNAME" := Fixture.alice; "PYTHX_PASSWORD" := "trial" ]} [] tt [].

Definition attended : world unit := World Fixture.sources ∅ [""; ""] tt [].

Definition desk : world (list submission) := World with_bytecode ∅ [] [] [].

(** A terminal at which an address is typed and the password prompt is
    answered with the empty line. *)
Definition typed : world unit := World Fixture.sources ∅ [Fixture.alice; ""] tt [].

(** The four bytes of a file with one line that ends in carriage return
    and line feed, and a world that holds the file as it is read. *)
Definition crlf_bytes : string := "ab" +:+ String "013" (String "010" EmptyString).

Definition windows : world unit :=
  Fixture.booted {[ "crlf.sol" := PyText.universal_newlines crlf_bytes;
                    "empty.sol" := "" ]}.

End Scenario.

(** ** Properties *)

(** *** Lines of a text *)

Lemma len_nonneg (s : string) : 0 <= Py.len s.
Proof. unfold Py.len. lia. Qed.

Lemma len_String (c : ascii) (s : string) : Py.len (String c s) = 1 + Py.len s.
Proof. unfold Py.len. cbn [String.length]. lia. Qed.

Lemma iter_lines_cons (c : ascii) (rest : string) :
  exists first others, Py.iter_lines (String c rest) = first :: others.
Proof.
  cbn [Py.iter_lines]. destruct (Ascii.eqb c Py.newline); [eauto |].
  destruct (Py.iter_lines rest); eauto.
Qed.

Lemma iter_lines_nil (text : string) : Py.iter_lines text = [] <-> text = "".
Proof.
  split; [| intros ->; reflexivity].
  destruct text as [| c rest]; [reflexivity |].
  destruct (iter_lines_cons c rest) as (first & others & ->). discriminate.
Qed.

(** Every line a file yields has at least one character. *)
Lemma iter_lines_positive (text : string) :
  Forall (fun l => 0 < Py.len l) (Py.iter_lines text).
Proof.
  induction text as [| c rest IH]; cbn [Py.iter_lines]; [constructor |].
  destruct (Ascii.eqb c Py.newline).
  - constructor; [reflexivity | exact IH].
  - destruct (Py.iter_lines rest) as [| h t].
    + repeat constructor.
    + inversion IH; subst. constructor; [| assumption].
      rewrite len_String. lia.
Qed.

Lemma cumulative_nil (k : nat) : cumulative [] k = 0.
Proof. unfold cumulative. destruct k; reflexivity. Qed.

Lemma cumulative_0 (lines : list string) : cumulative lines 0 = 0.
Proof. reflexivity. Qed.

Lemma cumulative_cons (l : string) (lines : list string) (k : nat) :
  cumulative (l :: lines) (S k) = Py.len l + cumulative lines k.
Proof. reflexivity. Qed.

Lemma cumulative_step (lines : list string) (k : nat) (l : string) :
  lines !! k = Some l -> cumulative lines (S k) = cumulative lines k + Py.len l.
Proof.
  revert k. induction lines as [| h t IH]; intros k Hk; [discriminate |].
  destruct k as [| k].
  - injection Hk as ->. rewrite cumulative_cons, !cumulative_0. lia.
  - rewrite !cumulative_cons. rewrite (IH k Hk). lia.
Qed.

Lemma cumulative_mono (lines : list string) (j k : nat) :
  (j <= k)%nat -> cumulative lines j <= cumulative lines k.
Proof.
  revert j k. induction lines as [| h t IH]; intros j k Hjk.
  - rewrite !cumulative_nil. lia.
  - destruct j as [| j].
    + rewrite cumulative_0. destruct k as [| k]; [rewrite cumulative_0; lia |].
      rewrite cumulative_cons. pose proof (len_nonneg h).
      pose proof (IH 0%nat k ltac:(lia)) as Hk. rewrite cumulative_0 in Hk. lia.
    + destruct k as [| k]; [lia |].
      rewrite !cumulative_cons. pose proof (IH j k ltac:(lia)). lia.
Qed.

(** The lines of a text add up to the text. *)
Lemma iter_lines_total (text : string) :
  cumulative (Py.iter_lines text) (length (Py.iter_lines text)) = Py.len text.
Proof.
  induction text as [| c rest IH]; [reflexivity |].
  cbn [Py.iter_lines]. rewrite len_String.
  destruct (Ascii.eqb c Py.newline).
  - cbn [length]. rewrite cumulative_cons, IH. reflexivity.
  - destruct (Py.iter_lines rest) as [| h t].
    + cbn [length] in *. rewrite cumulative_cons, cumulative_0.
      rewrite cumulative_0 in IH. rewrite <- IH. reflexivity.
    + cbn [length] in *. rewrite !cumulative_cons in *. rewrite len_String. lia.
Qed.

(** *** The scanning loop *)

(** A return of the loop happens at the first line, counted from the
    current one, at which the running total reaches the offset. *)
Lemma scan_lines_Some (lines : list string) :
  forall overall line_ctr offset ln col,
    scan_lines lines overall line_ctr offset = Some (ln, col) ->
    exists (k : nat) (l : string),
      lines !! k = Some l
      /\ ln = line_ctr + Z.of_nat (S k)
      /\ col = overall + cumulative lines (S k) - offset
      /\ offset <= overall + cumulative lines (S k)
      /\ forall j, (1 <= j <= k)%nat -> overall + cumulative lines j < offset.
Proof.
  induction lines as [| h t IH]; intros overall line_ctr offset ln col Hscan;
    [discriminate |].
  cbn [scan_lines] in Hscan.
  destruct (Z.leb_spec offset (overall + Py.len h)) as [Hle | Hlt].
  - injection Hscan as <- <-. exists 0%nat, h.
    rewrite cumulative_cons, cumulative_0.
    repeat split; lia.
  - apply IH in Hscan as (k & l & Hk & -> & -> & Hreach & Hmin).
    exists (S k), l. rewrite !cumulative_cons.
    repeat split; try lia; [exact Hk |].
    intros [| j] Hj; [lia |]. rewrite cumulative_cons.
    destruct j as [| j]; [rewrite cumulative_0; lia |].
    specialize (Hmin (S j) ltac:(lia)). lia.
Qed.

(** The loop runs off the end exactly when no line brings the running
    total up to the offset. *)
Lemma scan_lines_None (lines : list string) :
  forall overall line_ctr offset,
    scan_lines lines overall line_ctr offset = None <->
    (lines = [] \/ overall + cumulative lines (length lines) < offset).
Proof.
  induction lines as [| h t IH]; intros overall line_ctr offset.
  - split; [left; reflexivity | reflexivity].
  - cbn [scan_lines length]. rewrite cumulative_cons.
    destruct (Z.leb_spec offset (overall + Py.len h)) as [Hle | Hlt].
    + split; [discriminate |]. intros [Hnil | Hlt]; [discriminate |].
      pose proof (cumulative_mono t 0 (length t) ltac:(lia)) as Hm.
      rewrite cumulative_0 in Hm. lia.
    + rewrite IH. split.
      * intros [-> | Hlt']; right; [cbn [length]; rewrite cumulative_0 |]; lia.
      * intros [Hnil | Hlt']; [discriminate |].
        destruct t as [| h' t']; [left; reflexivity | right; lia].
Qed.

(** *** The resolver *)

Section Resolver.

Context {service : Type}.
Implicit Types (w : world service) (name text : string) (offset : Z).

(** On an existing file the resolver is the loop over its lines, followed
    by the log entry and [sys.exit(1)] when the loop runs off the end. *)
Lemma resolver_unfold w name text offset :
  files w !! name = Some text ->
  get_source_location_by_offset name offset w =
  match scan_lines (Py.iter_lines text) 0 0 offset with
  | Some position => (Ok position, w)
  | None => (SysExit 1, logged w [not_found name offset])
  end.
Proof.
  intros Hfile. unfold get_source_location_by_offset, mbind, M_bind, read_text.
  rewrite Hfile. destruct (scan_lines _ 0 0 offset); reflexivity.
Qed.

Lemma resolver_success w w' name text offset ln col :
  files w !! name = Some text ->
  get_source_location_by_offset name offset w = (Ok (ln, col), w') ->
  scan_lines (Py.iter_lines text) 0 0 offset = Some (ln, col) /\ w' = w.
Proof.
  intros Hfile. rewrite (resolver_unfold _ _ _ _ Hfile).
  destruct (scan_lines _ 0 0 offset) as [p |]; [| discriminate].
  intros [= -> <-]. split; reflexivity.
Qed.

(** C1, as amended: on a file with at least one character and an offset
    from 0 to the length of its text, the resolver returns a line and a
    column such that the characters before that line plus the line's length
    minus the column equal the offset, and the line is the first one whose
    running total reaches the offset. *)
Theorem resolver_contract w name text offset :
  files w !! name = Some text ->
  text <> "" ->
  0 <= offset <= Py.len text ->
  exists ln col l,
    get_source_location_by_offset name offset w = (Ok (ln, col), w)
    /\ nth_line text ln = Some l
    /\ cumulative (Py.iter_lines text) (Z.to_nat (ln - 1)) + (Py.len l - col) = offset
    /\ offset <= cumulative (Py.iter_lines text) (Z.to_nat ln)
    /\ forall j, 1 <= j < ln -> cumulative (Py.iter_lines text) (Z.to_nat j) < offset.
Proof.
  intros Hfile Hne Hrange. rewrite (resolver_unfold _ _ _ _ Hfile).
  destruct (scan_lines _ 0 0 offset) as [[ln col] |] eqn:Hscan.
  - apply scan_lines_Some in Hscan as (k & l & Hk & -> & -> & Hreach & Hmin).
    exists (0 + Z.of_nat (S k)), (0 + cumulative (Py.iter_lines text) (S k) - offset), l.
    replace (Z.to_nat (0 + Z.of_nat (S k) - 1)) with k by lia.
    replace (Z.to_nat (0 + Z.of_nat (S k))) with (S k) by lia.
    rewrite (cumulative_step _ _ _ Hk) in *.
    repeat split; try lia.
    + unfold nth_line. destruct (Z.leb_spec 1 (0 + Z.of_nat (S k))); [| lia].
      replace (Z.to_nat (0 + Z.of_nat (S k) - 1)) with k by lia. exact Hk.
    + intros j Hj. specialize (Hmin (Z.to_nat j) ltac:(lia)). lia.
  - apply scan_lines_None in Hscan as [Hnil | Hshort].
    + apply iter_lines_nil in Hnil. contradiction.
    + rewrite iter_lines_total in Hshort. lia.
Qed.

(** C2: on the text of two lines "abc" and "def", each with its newline,
    offset 4 resolves to (1, 0), offset 5 to (2, 3), offset 8 to (2, 0), and
    offset 9 ends in the logged failure and exit status 1. *)
Theorem resolver_abc_def w name :
  files w !! name = Some Fixture.abc_def ->
  get_source_location_by_offset name 4 w = (Ok (1, 0), w)
  /\ get_source_location_by_offset name 5 w = (Ok (2, 3), w)
  /\ get_source_location_by_offset name 8 w = (Ok (2, 0), w)
  /\ get_source_location_by_offset name 9 w = (SysExit 1, logged w [not_found name 9]).
Proof.
  intros Hfile. rewrite !(resolver_unfold _ _ _ _ Hfile).
  repeat split; reflexivity.
Qed.

(** C3, as amended: when the file has a first line, offset 0 resolves to
    line 1 and to the column that equals the length of that line, which is
    at least 1. *)
Theorem resolver_offset_zero w name text first :
  files w !! name = Some text ->
  nth_line text 1 = Some first ->
  get_source_location_by_offset name 0 w = (Ok (1, Py.len first), w)
  /\ 0 < Py.len first.
Proof.
  intros Hfile Hfirst. rewrite (resolver_unfold _ _ _ _ Hfile).
  unfold nth_line in Hfirst. cbn in Hfirst.
  pose proof (iter_lines_positive text) as Hpos.
  destruct (Py.iter_lines text) as [| h t]; [discriminate |].
  injection Hfirst as ->. inversion Hpos; subst.
  cbn [scan_lines]. destruct (Z.leb_spec 0 (0 + Py.len first)); [| lia].
  split; [| assumption]. repeat f_equal; lia.
Qed.

(** C4: an offset beyond the end of the file never yields a position; the
    resolver logs the failure with the file name and the offset and leaves
    through [sys.exit(1)]. *)
Theorem resolver_beyond_end w name text offset :
  files w !! name = Some text ->
  Py.len text < offset ->
  get_source_location_by_offset name offset w
  = (SysExit 1, logged w [not_found name offset]).
Proof.
  intros Hfile Hbeyond. rewrite (resolver_unfold _ _ _ _ Hfile).
  assert (scan_lines (Py.iter_lines text) 0 0 offset = None) as ->; [| reflexivity].
  apply scan_lines_None. right. rewrite iter_lines_total. lia.
Qed.

(** C5: on an empty file the loop body never runs, so every offset, 0
    included, ends in the logged failure and exit status 1. *)
Theorem resolver_empty_file w name offset :
  files w !! name = Some "" ->
  get_source_location_by_offset name offset w
  = (SysExit 1, logged w [not_found name offset]).
Proof.
  intros Hfile. rewrite (resolver_unfold _ _ _ _ Hfile). reflexivity.
Qed.

(** C10: when the resolver returns for an offset of at least 1, the line
    is between 1 and the number of lines, and the column is at least 0 and
    less than the length of that line. *)
Theorem resolver_position_bounds w w' name text offset ln col :
  files w !! name = Some text ->
  1 <= offset ->
  get_source_location_by_offset name offset w = (Ok (ln, col), w') ->
  1 <= ln <= Z.of_nat (length (Py.iter_lines text))
  /\ exists l, nth_line text ln = Some l /\ 0 <= col < Py.len l.
Proof.
  intros Hfile Hoff Hrun.
  destruct (resolver_success _ _ _ _ _ _ _ Hfile Hrun) as [Hscan _].
  apply scan_lines_Some in Hscan as (k & l & Hk & -> & -> & Hreach & Hmin).
  pose proof (lookup_lt_Some _ _ _ Hk) as Hlt.
  split; [lia |]. exists l. split.
  - unfold nth_line. destruct (Z.leb_spec 1 (0 + Z.of_nat (S k))); [| lia].
    replace (Z.to_nat (0 + Z.of_nat (S k) - 1)) with k by lia. exact Hk.
  - rewrite (cumulative_step _ _ _ Hk) in *.
    destruct k as [| k].
    + rewrite cumulative_0 in *. lia.
    + specialize (Hmin (S k) ltac:(lia)). lia.
Qed.

End Resolver.

(** *** Credentials *)

Section Credentials.

Context {service : Type}.
Variable json_loads : string -> option Py.value.
Implicit Types (w : world service) (path text : string) (config : Py.value).

Lemma all_in_container config keys w :
  container config = true ->
  all_in config keys w = (Ok (forallb (has_key config) keys), w).
Proof.
  intros Hc. induction keys as [| k ks IH]; [reflexivity |].
  cbn [all_in forallb]. unfold mbind, M_bind, or_raise, has_key at 1.
  destruct config; try discriminate; cbn [Py.contains];
    match goal with |- context [mret ?b w] => destruct b eqn:Hb end;
    cbn; rewrite ?Hb; cbn; try exact IH; reflexivity.
Qed.

Lemma all_in_not_container config k ks w :
  container config = false ->
  all_in config (k :: ks) w = (Raise Py.TypeError, w).
Proof. intros Hc. destruct config; try discriminate; reflexivity. Qed.

Lemma parse_config_unfold w path text config tokens_required :
  files w !! path = Some text ->
  json_loads text = Some config ->
  parse_config json_loads path tokens_required w =
  match all_in config CONFIG_KEYS w with
  | (Ok keys_present, w') =>
      if negb (Py.is_dict config && keys_present)
      then (SysExit 1, logged w' [keys_diagnostic path])
      else
        if tokens_required
           && negb (match Py.getitem config "access" with
                    | inr access =>
                        Py.truthy access
                        && match Py.getitem config "refresh" with
                           | inr refresh => Py.truthy refresh
                           | inl _ => false
                           end
                    | inl _ => false
                    end)
        then match Py.getitem config "access", Py.getitem config "refresh" with
             | inl e, _ => (Raise e, w')
             | inr access, inl e =>
                 if Py.truthy access then (Raise e, w')
                 else (SysExit 1, logged w' [tokens_diagnostic path])
             | inr _, inr _ => (SysExit 1, logged w' [tokens_diagnostic path])
             end
        else (Ok config, w')
  | (SysExit code, w') => (SysExit code, w')
  | (Raise e, w') => (Raise e, w')
  end.
Proof.
  intros Hfile Hjson. unfold parse_config, mbind, M_bind, read_text.
  rewrite Hfile. cbn -[all_in]. rewrite Hjson. cbn -[all_in].
  destruct (all_in config CONFIG_KEYS w) as [[present | code | e] w']; try reflexivity.
  destruct (negb (Py.is_dict config && present)); [reflexivity |].
  destruct tokens_required; [| reflexivity]. cbn.
  unfold getitem.
  destruct (Py.getitem config "access") as [e | access]; [reflexivity |]. cbn.
  destruct (Py.truthy access);
    destruct (Py.getitem config "refresh") as [e | refresh]; cbn; try reflexivity.
  destruct (Py.truthy refresh); reflexivity.
Qed.

(** C7, where the code departs from it: a credential file that decodes to
    [null], a boolean or a number has none of the required keys, yet
    [parse_config] prints no diagnostic and does not reach [sys.exit(1)]:
    the membership test runs before the type test and raises [TypeError]. *)
Theorem parse_config_not_container w path text config tokens_required :
  files w !! path = Some text ->
  json_loads text = Some config ->
  container config = false ->
  parse_config json_loads path tokens_required w = (Raise Py.TypeError, w).
Proof.
  intros Hfile Hjson Hc.
  rewrite (parse_config_unfold _ _ _ _ _ Hfile Hjson).
  unfold CONFIG_KEYS. rewrite (all_in_not_container _ _ _ _ Hc). reflexivity.
Qed.

(** An object, array or string that lacks a required key, or is not an
    object, gets the diagnostic naming the keys and exit status 1. *)
Lemma parse_config_missing_key w path text config tokens_required :
  files w !! path = Some text ->
  json_loads text = Some config ->
  container config = true ->
  Py.is_dict config = false \/ (exists k, In k CONFIG_KEYS /\ has_key config k = false) ->
  parse_config json_loads path tokens_required w
  = (SysExit 1, logged w [keys_diagnostic path]).
Proof.
  intros Hfile Hjson Hc Hbad.
  rewrite (parse_config_unfold _ _ _ _ _ Hfile Hjson), (all_in_container _ _ _ Hc).
  assert (Py.is_dict config && forallb (has_key config) CONFIG_KEYS = false) as ->;
    [| reflexivity].
  destruct Hbad as [-> | (k & Hin & Hk)]; [reflexivity |].
  apply andb_false_iff. right.
  apply not_true_iff_false. intros Hall.
  rewrite forallb_forall in Hall. rewrite (Hall k Hin) in Hk. discriminate.
Qed.

(** An object with the four keys whose access or refresh value is falsy
    gets the second diagnostic and exit status 1 when tokens are required. *)
Lemma parse_config_missing_token w path text d access refresh :
  files w !! path = Some text ->
  json_loads text = Some (Py.VDict d) ->
  forallb (has_key (Py.VDict d)) CONFIG_KEYS = true ->
  Py.dict_get d "access" = Some access ->
  Py.dict_get d "refresh" = Some refresh ->
  Py.truthy access && Py.truthy refresh = false ->
  parse_config json_loads path true w
  = (SysExit 1, logged w [tokens_diagnostic path]).
Proof.
  intros Hfile Hjson Hkeys Ha Hr Hfalsy.
  rewrite (parse_config_unfold _ _ _ _ _ Hfile Hjson).
  rewrite (all_in_container (Py.VDict d) _ _ eq_refl), Hkeys.
  cbn [Py.is_dict andb negb Py.getitem]. rewrite Ha, Hr, Hfalsy. reflexivity.
Qed.

(** Otherwise the decoded object is returned and nothing is printed. *)
Lemma parse_config_accepts w path text d access refresh tokens_required :
  files w !! path = Some text ->
  json_loads text = Some (Py.VDict d) ->
  forallb (has_key (Py.VDict d)) CONFIG_KEYS = true ->
  Py.dict_get d "access" = Some access ->
  Py.dict_get d "refresh" = Some refresh ->
  tokens_required = false \/ Py.truthy access && Py.truthy refresh = true ->
  parse_config json_loads path tokens_required w = (Ok (Py.VDict d), w).
Proof.
  intros Hfile Hjson Hkeys Ha Hr Hok.
  rewrite (parse_config_unfold _ _ _ _ _ Hfile Hjson).
  rewrite (all_in_container (Py.VDict d) _ _ eq_refl), Hkeys.
  cbn [Py.is_dict andb negb Py.getitem]. rewrite Ha, Hr.
  destruct Hok as [-> | ->]; [reflexivity |]. rewrite andb_false_r. reflexivity.
Qed.

End Credentials.

(** *** Listing *)

Section Listing.

Context {service : Type}.
Variable json_loads : string -> option Py.value.
Variable json_dumps : Py.value -> string.
Variable tabulate : list string -> list (list Py.value) -> string.
Variable api_login : Client -> service -> result Client * service.
Variable api_analysis_list : Client -> service -> result (Client * AnalysisList) * service.
Implicit Types (w : world service) (c : Client).

Lemma quiet_same {A} (m : M service A) :
  (forall w r w1, m w = (r, w1) -> trace w1 = trace w) -> quiet m.
Proof.
  intros Hsame w r w1 Hrun. exists []. rewrite app_nil_r.
  split; [eauto | apply not_elem_of_nil].
Qed.

Lemma quiet_bind {A B} (m : M service A) (k : A -> M service B) :
  quiet m -> (forall a, quiet (k a)) -> quiet (m ≫= k).
Proof.
  intros Hm Hk w r w2. unfold mbind, M_bind.
  destruct (m w) as [[a | code | e] w1] eqn:Hrun;
    destruct (Hm _ _ _ Hrun) as (ev1 & Htrace1 & Hquiet1).
  - intros Hrest. destruct (Hk a _ _ _ Hrest) as (ev2 & Htrace2 & Hquiet2).
    exists (ev1 ++ ev2). rewrite Htrace2, Htrace1, app_assoc.
    split; [reflexivity |]. rewrite elem_of_app. tauto.
  - intros [= <- <-]. eauto.
  - intros [= <- <-]. eauto.
Qed.

Lemma quiet_ret {A} (a : A) : quiet (mret a : M service A).
Proof. apply quiet_same. intros w r w1 [= <- <-]. reflexivity. Qed.

Lemma quiet_raise {A} (e : Py.exn) : quiet (raise e : M service A).
Proof. apply quiet_same. intros w r w1 [= <- <-]. reflexivity. Qed.

Lemma quiet_sys_exit {A} (code : Z) : quiet (sys_exit code : M service A).
Proof. apply quiet_same. intros w r w1 [= <- <-]. reflexivity. Qed.

Lemma quiet_or_raise {A} (o : option A) (e : Py.exn) : quiet (or_raise (service := service) o e).
Proof. destruct o; [apply quiet_ret | apply quiet_raise]. Qed.

Lemma quiet_getitem (v : Py.value) (k : string) : quiet (getitem (service := service) v k).
Proof. unfold getitem. destruct (Py.getitem v k); [apply quiet_raise | apply quiet_ret]. Qed.

Lemma quiet_echo (text : string) : quiet (echo (service := service) text).
Proof.
  intros w r w1 [= <- <-]. exists [Echo text].
  split; [reflexivity |]. rewrite list_elem_of_singleton. discriminate.
Qed.

Lemma quiet_prompt (text default : string) : quiet (prompt (service := service) text default).
Proof.
  intros w r w1. unfold prompt. cbn.
  destruct (keyboard w); intros [= <- <-]; exists [Prompted text];
    (split; [reflexivity |]); rewrite list_elem_of_singleton; discriminate.
Qed.

Lemma quiet_read_text (path : string) : quiet (read_text (service := service) path).
Proof.
  apply quiet_same. intros w r w1. unfold read_text.
  destruct (files w !! path); intros [= <- <-]; reflexivity.
Qed.

Lemma quiet_write_text (path text : string) : quiet (write_text (service := service) path text).
Proof. apply quiet_same. intros w r w1 [= <- <-]. reflexivity. Qed.

Lemma quiet_isfile (path : string) : quiet (isfile (service := service) path).
Proof. apply quiet_same. intros w r w1 [= <- <-]. reflexivity. Qed.

Lemma quiet_environ_get (name : string) : quiet (environ_get (service := service) name).
Proof. apply quiet_same. intros w r w1 [= <- <-]. reflexivity. Qed.

Lemma quiet_login c : quiet (request OpLogin (api_login c)).
Proof.
  intros w r w1. unfold request. destruct (api_login c (remote w)) as [r' s'].
  intros [= <- <-]. exists [Called OpLogin].
  split; [reflexivity |]. rewrite list_elem_of_singleton. discriminate.
Qed.

Lemma quiet_all_in (config : Py.value) (keys : list string) :
  quiet (all_in (service := service) config keys).
Proof.
  induction keys as [| k ks IH]; [apply quiet_ret |].
  cbn [all_in]. apply quiet_bind; [apply quiet_or_raise |].
  intros [|]; [exact IH | apply quiet_ret].
Qed.

Create HintDb quiet.

#[local] Hint Resolve quiet_ret quiet_raise quiet_sys_exit quiet_or_raise
  quiet_getitem quiet_echo quiet_prompt quiet_read_text quiet_write_text
  quiet_isfile quiet_environ_get quiet_login quiet_all_in : quiet.

Ltac quiet_step :=
  first [ apply quiet_bind; [| intros ? ]
        | match goal with
          | |- quiet (if ?b then _ else _) => destruct b
          | |- quiet (match ?o with Some _ => _ | None => _ end) => destruct o
          end
        | solve [ auto with quiet ] ].

Lemma quiet_parse_config (path : string) (tokens_required : bool) :
  quiet (parse_config (service := service) json_loads path tokens_required).
Proof. unfold parse_config. repeat quiet_step. Qed.

Lemma quiet_update_config (path : string) (u p a r : Py.value) :
  quiet (update_config (service := service) json_dumps path u p a r).
Proof. unfold update_config. auto with quiet. Qed.

Lemma quiet_environ_or_prompt (name text default : string) :
  quiet (environ_or_prompt (service := service) name text default).
Proof. unfold environ_or_prompt. repeat quiet_step. Qed.

(** Recovering the client never asks the service for the analysis list. *)
Lemma quiet_recover_client (config : string) (staging exit_on_missing : bool) :
  quiet (recover_client json_loads json_dumps api_login config staging exit_on_missing).
Proof.
  unfold recover_client.
  repeat first [ apply quiet_parse_config | apply quiet_update_config
               | apply quiet_environ_or_prompt | quiet_step ].
Qed.

(** With a well-formed credential file the client is built from its four
    values and nothing else happens. *)
Lemma recover_client_from_file w (path text : string) d username pass access refresh
    (staging exit_on_missing : bool) :
  files w !! path = Some text ->
  json_loads text = Some (Py.VDict d) ->
  Py.dict_get d "username" = Some username ->
  Py.dict_get d "password" = Some pass ->
  Py.dict_get d "access" = Some access ->
  Py.dict_get d "refresh" = Some refresh ->
  Py.truthy access && Py.truthy refresh = true ->
  recover_client json_loads json_dumps api_login path staging exit_on_missing w
  = (Ok (Some (mkClient username pass access refresh staging)), w).
Proof.
  intros Hfile Hjson Hu Hp Ha Hr Htokens.
  assert (forallb (has_key (Py.VDict d)) CONFIG_KEYS = true) as Hkeys.
  { unfold CONFIG_KEYS, has_key. cbn [forallb Py.contains].
    rewrite Hu, Hp, Ha, Hr. reflexivity. }
  unfold recover_client, mbind at 1, M_bind, isfile. rewrite Hfile.
  rewrite bool_decide_true by eauto. cbn [negb].
  unfold mbind at 1, M_bind.
  rewrite (parse_config_accepts json_loads w path text d access refresh true
             Hfile Hjson Hkeys Ha Hr (or_intror Htokens)).
  unfold mbind, M_bind, getitem. cbn [Py.getitem].
  rewrite Hu, Hp, Ha, Hr. reflexivity.
Qed.

(** The same stop, read off the credential file: username the placeholder
    address, both tokens present. *)
Lemma ps_core_trial_config w (path text : string) d pass access refresh
    (staging : bool) (number : Z) :
  files w !! path = Some text ->
  json_loads text = Some (Py.VDict d) ->
  Py.dict_get d "username" = Some (Py.VStr PLACEHOLDER) ->
  Py.dict_get d "password" = Some pass ->
  Py.dict_get d "access" = Some access ->
  Py.dict_get d "refresh" = Some refresh ->
  Py.truthy access && Py.truthy refresh = true ->
  ps_core json_loads json_dumps api_login api_analysis_list path staging number w
  = (SysExit 0, logged w [Echo GUIDANCE]).
Proof.
  intros Hfile Hjson Hu Hp Ha Hr Htokens.
  unfold ps_core, mbind at 1, M_bind.
  rewrite (recover_client_from_file w path text d _ _ _ _ staging false
             Hfile Hjson Hu Hp Ha Hr Htokens).
  reflexivity.
Qed.

(** C8: once the client recovered from the configuration carries the
    placeholder address, [ps_core] prints the guidance message and leaves
    through [sys.exit(0)]; nothing it did up to there called the
    analysis-list operation, and it raises nothing. *)
Theorem ps_core_placeholder w w1 c (config : string) (staging : bool) (number : Z) :
  recover_client json_loads json_dumps api_login config staging false w
  = (Ok (Some c), w1) ->
  eth_address c = Py.VStr PLACEHOLDER ->
  ps_core json_loads json_dumps api_login api_analysis_list config staging number w
  = (SysExit 0, logged w1 [Echo GUIDANCE])
  /\ exists events,
       trace (logged w1 [Echo GUIDANCE]) = trace w ++ events
       /\ Called OpAnalysisList ∉ events.
Proof.
  intros Hrec Haddr. split.
  - unfold ps_core, mbind, M_bind. rewrite Hrec. cbn. rewrite Haddr. reflexivity.
  - destruct (quiet_recover_client _ _ _ _ _ _ Hrec) as (events & Htrace & Hquiet).
    exists (events ++ [Echo GUIDANCE]). cbn. rewrite Htrace, app_assoc.
    split; [reflexivity |].
    rewrite elem_of_app, list_elem_of_singleton. intros [? | ?]; [tauto | discriminate].
Qed.

Lemma ps_core_lists w w1 c c' resp s' (config : string) (staging : bool) (number : Z) :
  recover_client json_loads json_dumps api_login config staging false w
  = (Ok (Some c), w1) ->
  Py.eq_str (eth_address c) PLACEHOLDER = false ->
  api_analysis_list c (remote w1) = (Ok (c', resp), s') ->
  ps_core json_loads json_dumps api_login api_analysis_list config staging number w
  = (Ok (mkAnalysisList (Py.slice_to (analyses resp) (number + 1))),
     listed json_dumps config c' s' w1).
Proof.
  intros Hrec Haddr Hlist. unfold ps_core, mbind, M_bind. rewrite Hrec. cbn.
  rewrite Haddr. unfold request. rewrite Hlist. reflexivity.
Qed.

(** C9: with [--number N], N in the range 1..100 the option accepts, and a
    response of more than N+1 analyses, [ps_core] keeps the first N+1
    entries and [ps] prints a table of N+1 rows. *)
Theorem ps_number_plus_one w w1 c c' resp s' (config : string) (staging : bool)
    (number : Z) :
  recover_client json_loads json_dumps api_login config staging false w
  = (Ok (Some c), w1) ->
  Py.eq_str (eth_address c) PLACEHOLDER = false ->
  api_analysis_list c (remote w1) = (Ok (c', resp), s') ->
  1 <= number <= 100 ->
  number + 1 < Z.of_nat (length (analyses resp)) ->
  exists shown,
    shown = take (Z.to_nat (number + 1)) (analyses resp)
    /\ Z.of_nat (length shown) = number + 1
    /\ ps_core json_loads json_dumps api_login api_analysis_list config staging number w
       = (Ok (mkAnalysisList shown), listed json_dumps config c' s' w1)
    /\ ps json_loads json_dumps tabulate api_login api_analysis_list config staging number w
       = (Ok tt, logged (listed json_dumps config c' s' w1)
                   [Echo (tabulate [] (listing shown))])
    /\ Z.of_nat (length (listing shown)) = number + 1.
Proof.
  intros Hrec Haddr Hlist Hrange Hmore.
  pose proof (ps_core_lists _ _ _ _ _ _ config staging number Hrec Haddr Hlist) as Hcore.
  assert (Py.slice_to (analyses resp) (number + 1)
          = take (Z.to_nat (number + 1)) (analyses resp)) as Hslice.
  { unfold Py.slice_to. destruct (Z.leb_spec 0 (number + 1)); [reflexivity | lia]. }
  rewrite Hslice in Hcore.
  assert (Z.of_nat (length (take (Z.to_nat (number + 1)) (analyses resp))) = number + 1)
    as Hlen by (rewrite length_take; lia).
  eexists. split; [reflexivity |]. split; [exact Hlen |]. split; [exact Hcore |].
  split.
  - unfold ps, mbind at 1, M_bind. rewrite Hcore. reflexivity.
  - unfold listing. rewrite length_map. exact Hlen.
Qed.

End Listing.

(** *** Report *)

Section Report.

Context {service : Type}.
Implicit Types (w : world service).

Lemma append_row_count (name : string) (r : row) (m : list (string * list row)) :
  row_count (append_row name r m) = S (row_count m).
Proof.
  induction m as [| [k rows] others IH]; [reflexivity |].
  cbn [append_row]. destruct (String.eqb k name); cbn [row_count foldr snd] in *.
  - rewrite length_app. cbn [length]. lia.
  - fold (row_count (append_row name r others)). fold (row_count others).
    rewrite IH. lia.
Qed.

(** Whatever the number of locations of an issue, a run of the aggregation
    that succeeds records exactly one row per issue. *)
Lemma aggregate_row_count (sources : list string) (todo : list Issue) :
  forall vars acc w out w',
    aggregate sources todo vars acc w = (Ok out, w') ->
    row_count out = (row_count acc + length todo)%nat.
Proof.
  induction todo as [| issue rest IH]; intros vars acc w out w'.
  - intros [= <- <-]. cbn [length]. lia.
  - cbn [aggregate]. unfold mbind at 1, M_bind.
    destruct (resolve_locations _ _ _ w) as [[v | code | e] w1]; try discriminate.
    unfold mbind, M_bind, or_raise.
    destruct (filename v), (line v), (column v); cbn; try discriminate.
    intros Hrest. apply IH in Hrest. rewrite append_row_count in Hrest.
    cbn [length]. lia.
Qed.

End Report.

(** ** Worked examples on the concrete collaborators *)

Example split_source_map : Py.split ":" "12:3:0" = ["12"; "3"; "0"].
Proof. reflexivity. Qed.

Example split_empty : Py.split ":" "" = [""].
Proof. reflexivity. Qed.

Example int_literals :
  Py.int " 42 " = Some 42 /\ Py.int "-7" = Some (-7) /\ Py.int "1_000" = Some 1000
  /\ Py.int "" = None /\ Py.int "1__0" = None /\ Py.int "4x" = None
  /\ Py.int "+" = None /\ Py.int "007" = Some 7.
Proof. repeat split; reflexivity. Qed.

Example iter_lines_keeps_terminators :
  Py.iter_lines ("abc" +:+ Py.nl +:+ Py.nl +:+ "de") = ["abc" +:+ Py.nl; Py.nl; "de"].
Proof. reflexivity. Qed.

Example loads_inverts_dumps :
  Fixture.loads (Fixture.dumps Fixture.trial) = Some Fixture.trial
  /\ Fixture.loads "null" = Some Py.VNone
  /\ Fixture.loads "{" = None.
Proof. repeat split; vm_compute; reflexivity. Qed.

(** First use: no credential file, the defaults accepted at both prompts.
    The client logs in, the credentials are saved, and the listing stops
    at the guidance message with exit status 0. *)
Example ps_core_first_use :
  let w := World Fixture.sources ∅ [""; ""] tt [] in
  let out := ps_core Fixture.loads Fixture.dumps Fixture.login Fixture.analysis_list
               "pythx.json" false 20 w in
  fst out = SysExit 0
  /\ trace (snd out)
     = [Prompted "Please enter your Ethereum address";
        Prompted "Please enter your MythX password";
        Called OpLogin; Echo GUIDANCE]
  /\ files (snd out) !! "pythx.json" = Some (Fixture.dumps Fixture.trial).
Proof. vm_compute. repeat split; reflexivity. Qed.

(** A credential file without the refresh key: the diagnostic naming the
    keys, exit status 1. *)
Example parse_config_no_refresh :
  let w := Fixture.booted (Fixture.with_config Fixture.no_refresh) in
  parse_config Fixture.loads "pythx.json" true w
  = (SysExit 1, logged w [keys_diagnostic "pythx.json"]).
Proof. vm_compute. reflexivity. Qed.

(** A credential file with an empty access token, tokens required. *)
Example parse_config_empty_access :
  let w := Fixture.booted (Fixture.with_config Fixture.empty_access) in
  parse_config Fixture.loads "pythx.json" true w
  = (SysExit 1, logged w [tokens_diagnostic "pythx.json"])
  /\ parse_config Fixture.loads "pythx.json" false w = (Ok Fixture.empty_access, w).
Proof. vm_compute. split; reflexivity. Qed.

(** C6, where the code departs from it: the report holds one issue with
    the two locations 4:1:0 and 5:1:0 in a.sol. Both are resolved, to (1, 0)
    and to (2, 3), but the append sits after the inner loop, so the issue
    contributes a single row, that of its last location, and the table
    printed for a.sol has one row. *)
Theorem report_two_locations_one_row :
  let w := Fixture.booted (Fixture.with_config Fixture.registered) in
  let out := report Fixture.loads Fixture.dumps Fixture.tabulate Fixture.login
               Fixture.fetch_report "pythx.json" false "job-1" w in
  locations Fixture.finding = ["4:1:0"; "5:1:0"]
  /\ get_source_location_by_offset "a.sol" 4 w = (Ok (1, 0), w)
  /\ get_source_location_by_offset "a.sol" 5 w = (Ok (2, 3), w)
  /\ aggregate ["a.sol"] [Fixture.finding] (mkLocals None None None) [] w
     = (Ok [("a.sol", [(2, 3, Py.VStr "Reentrancy", Py.VStr "High",
                        Py.VStr "external call")])], w)
  /\ fst out = Ok tt
  /\ trace (snd out)
     = [Called (OpReport "job-1");
        Echo "Report for a.sol";
        Echo (Fixture.tabulate REPORT_HEADERS
                [[Py.VInt 2; Py.VInt 3; Py.VStr "Reentrancy"; Py.VStr "High";
                  Py.VStr "external call"]])].
Proof. vm_compute. repeat split; reflexivity. Qed.

(** C1 as stated fails at two inputs. On the empty file, offset 0 lies
    between 0 and the byte count 0, yet no position is returned. On the file
    of the four bytes a, b, carriage return, line feed, offset 4 equals the
    byte count, but the line is read as three characters, so the running
    total stops at 3 and no position is returned either. *)
Lemma resolver_contract_fails_on_empty_file_and_on_bytes :
  let w := Scenario.windows in
  (files w !! "empty.sol" = Some ""
   /\ 0 <= 0 <= Py.len ""
   /\ get_source_location_by_offset "empty.sol" 0 w
      = (SysExit 1, logged w [not_found "empty.sol" 0])
   /\ ~ exists ln col w',
         get_source_location_by_offset "empty.sol" 0 w = (Ok (ln, col), w'))
  /\ (files w !! "crlf.sol" = Some (PyText.universal_newlines Scenario.crlf_bytes)
      /\ Py.len Scenario.crlf_bytes = 4
      /\ Py.len (PyText.universal_newlines Scenario.crlf_bytes) = 3
      /\ 0 <= 4 <= Py.len Scenario.crlf_bytes
      /\ get_source_location_by_offset "crlf.sol" 4 w
         = (SysExit 1, logged w [not_found "crlf.sol" 4])
      /\ ~ exists ln col w',
            get_source_location_by_offset "crlf.sol" 4 w = (Ok (ln, col), w')).
Proof.
  cbv zeta.
  assert (files Scenario.windows !! "empty.sol" = Some "") as Hempty
    by (vm_compute; reflexivity).
  assert (files Scenario.windows !! "crlf.sol"
          = Some (PyText.universal_newlines Scenario.crlf_bytes)) as Hcrlf
    by (vm_compute; reflexivity).
  split.
  - split; [exact Hempty |]. split; [unfold Py.len; cbn; lia |].
    rewrite (resolver_unfold _ _ _ 0 Hempty). split; [reflexivity |].
    intros (ln & col & w' & Hrun). discriminate Hrun.
  - split; [exact Hcrlf |]. split; [reflexivity |]. split; [reflexivity |].
    split; [vm_compute; split; discriminate |].
    rewrite (resolver_unfold _ _ _ 4 Hcrlf). split; [reflexivity |].
    intros (ln & col & w' & Hrun). discriminate Hrun.
Qed.

(** C3 as stated fails on the one-line file "abc" with its newline: the
    first line is not empty, and offset 0 resolves to column 4, not 0. *)
Lemma resolver_offset_zero_column_is_length :
  let w := Fixture.booted Fixture.sources in
  files w !! "one.sol" = Some ("abc" +:+ Py.nl)
  /\ nth_line ("abc" +:+ Py.nl) 1 = Some ("abc" +:+ Py.nl)
  /\ "abc" +:+ Py.nl <> ""
  /\ get_source_location_by_offset "one.sol" 0 w = (Ok (1, 4), w)
  /\ get_source_location_by_offset "one.sol" 0 w <> (Ok (1, 0), w).
Proof.
  cbv zeta.
  assert (files (Fixture.booted Fixture.sources) !! "one.sol" = Some ("abc" +:+ Py.nl))
    as Hfile by (vm_compute; reflexivity).
  split; [exact Hfile |]. split; [reflexivity |]. split; [discriminate |].
  rewrite (resolver_unfold _ _ _ 0 Hfile). split; [reflexivity | discriminate].
Qed.

(** ** The theorems at concrete inputs *)

Lemma resolver_contract_witness :
  let w := Fixture.booted Fixture.sources in
  files w !! "a.sol" = Some Fixture.abc_def
  /\ Fixture.abc_def <> ""
  /\ 0 <= 5 <= Py.len Fixture.abc_def
  /\ exists ln col l,
       get_source_location_by_offset "a.sol" 5 w = (Ok (ln, col), w)
       /\ nth_line Fixture.abc_def ln = Some l
       /\ cumulative (Py.iter_lines Fixture.abc_def) (Z.to_nat (ln - 1)) + (Py.len l - col) = 5
       /\ 5 <= cumulative (Py.iter_lines Fixture.abc_def) (Z.to_nat ln)
       /\ forall j, 1 <= j < ln ->
            cumulative (Py.iter_lines Fixture.abc_def) (Z.to_nat j) < 5.
Proof.
  cbv zeta.
  assert (files (Fixture.booted Fixture.sources) !! "a.sol" = Some Fixture.abc_def)
    as Hfile by (vm_compute; reflexivity).
  assert (Fixture.abc_def <> "") as Hne by discriminate.
  assert (0 <= 5 <= Py.len Fixture.abc_def) as Hrange by (vm_compute; split; discriminate).
  split; [exact Hfile |]. split; [exact Hne |]. split; [exact Hrange |].
  exact (resolver_contract _ "a.sol" Fixture.abc_def 5 Hfile Hne Hrange).
Defined.

Lemma resolver_abc_def_witness :
  let w := Fixture.booted Fixture.sources in
  files w !! "a.sol" = Some Fixture.abc_def
  /\ get_source_location_by_offset "a.sol" 4 w = (Ok (1, 0), w)
  /\ get_source_location_by_offset "a.sol" 5 w = (Ok (2, 3), w)
  /\ get_source_location_by_offset "a.sol" 8 w = (Ok (2, 0), w)
  /\ get_source_location_by_offset "a.sol" 9 w = (SysExit 1, logged w [not_found "a.sol" 9]).
Proof.
  cbv zeta.
  assert (files (Fixture.booted Fixture.sources) !! "a.sol" = Some Fixture.abc_def)
    as Hfile by (vm_compute; reflexivity).
  split; [exact Hfile |].
  exact (resolver_abc_def _ "a.sol" Hfile).
Defined.

Lemma resolver_offset_zero_witness :
  let w := Fixture.booted Fixture.sources in
  files w !! "a.sol" = Some Fixture.abc_def
  /\ nth_line Fixture.abc_def 1 = Some ("abc" +:+ Py.nl)
  /\ get_source_location_by_offset "a.sol" 0 w = (Ok (1, Py.len ("abc" +:+ Py.nl)), w)
  /\ 0 < Py.len ("abc" +:+ Py.nl).
Proof.
  cbv zeta.
  assert (files (Fixture.booted Fixture.sources) !! "a.sol" = Some Fixture.abc_def)
    as Hfile by (vm_compute; reflexivity).
  assert (nth_line Fixture.abc_def 1 = Some ("abc" +:+ Py.nl)) as Hfirst by reflexivity.
  split; [exact Hfile |]. split; [exact Hfirst |].
  exact (resolver_offset_zero _ "a.sol" Fixture.abc_def _ Hfile Hfirst).
Defined.

Lemma resolver_beyond_end_witness :
  let w := Fixture.booted Fixture.sources in
  files w !! "a.sol" = Some Fixture.abc_def
  /\ Py.len Fixture.abc_def < 9
  /\ get_source_location_by_offset "a.sol" 9 w = (SysExit 1, logged w [not_found "a.sol" 9]).
Proof.
  cbv zeta.
  assert (files (Fixture.booted Fixture.sources) !! "a.sol" = Some Fixture.abc_def)
    as Hfile by (vm_compute; reflexivity).
  assert (Py.len Fixture.abc_def < 9) as Hbeyond by reflexivity.
  split; [exact Hfile |]. split; [exact Hbeyond |].
  exact (resolver_beyond_end _ "a.sol" Fixture.abc_def 9 Hfile Hbeyond).
Defined.

Lemma resolver_empty_file_witness :
  let w := Fixture.booted Fixture.sources in
  files w !! "empty.sol" = Some ""
  /\ get_source_location_by_offset "empty.sol" 0 w
     = (SysExit 1, logged w [not_found "empty.sol" 0])
  /\ get_source_location_by_offset "empty.sol" 1 w
     = (SysExit 1, logged w [not_found "empty.sol" 1]).
Proof.
  cbv zeta.
  assert (files (Fixture.booted Fixture.sources) !! "empty.sol" = Some "")
    as Hfile by (vm_compute; reflexivity).
  split; [exact Hfile |].
  split; [exact (resolver_empty_file _ "empty.sol" 0 Hfile)
         | exact (resolver_empty_file _ "empty.sol" 1 Hfile)].
Defined.

Lemma resolver_position_bounds_witness :
  let w := Fixture.booted Fixture.sources in
  files w !! "a.sol" = Some Fixture.abc_def
  /\ 1 <= 5
  /\ get_source_location_by_offset "a.sol" 5 w = (Ok (2, 3), w)
  /\ 1 <= 2 <= Z.of_nat (length (Py.iter_lines Fixture.abc_def))
  /\ exists l, nth_line Fixture.abc_def 2 = Some l /\ 0 <= 3 < Py.len l.
Proof.
  cbv zeta.
  assert (files (Fixture.booted Fixture.sources) !! "a.sol" = Some Fixture.abc_def)
    as Hfile by (vm_compute; reflexivity).
  assert (1 <= 5) as Hoff by lia.
  assert (get_source_location_by_offset "a.sol" 5 (Fixture.booted Fixture.sources)
          = (Ok (2, 3), Fixture.booted Fixture.sources)) as Hrun
    by (vm_compute; reflexivity).
  split; [exact Hfile |]. split; [exact Hoff |]. split; [exact Hrun |].
  exact (resolver_position_bounds _ _ "a.sol" Fixture.abc_def 5 2 3 Hfile Hoff Hrun).
Defined.

Lemma parse_config_not_container_witness :
  let w := Fixture.booted (Fixture.with_config Py.VNone) in
  files w !! "pythx.json" = Some "null"
  /\ Fixture.loads "null" = Some Py.VNone
  /\ container Py.VNone = false
  /\ parse_config Fixture.loads "pythx.json" true w = (Raise Py.TypeError, w).
Proof.
  cbv zeta.
  assert (files (Fixture.booted (Fixture.with_config Py.VNone)) !! "pythx.json"
          = Some "null") as Hfile by (vm_compute; reflexivity).
  assert (Fixture.loads "null" = Some Py.VNone) as Hjson by (vm_compute; reflexivity).
  split; [exact Hfile |]. split; [exact Hjson |]. split; [reflexivity |].
  exact (parse_config_not_container Fixture.loads _ "pythx.json" "null" Py.VNone true
           Hfile Hjson eq_refl).
Defined.

Lemma ps_core_placeholder_witness :
  let w := Fixture.booted (Fixture.with_config Fixture.trial) in
  let c := mkClient (Py.VStr PLACEHOLDER) (Py.VStr "trial") (Py.VStr "tok-a")
             (Py.VStr "tok-r") false in
  recover_client Fixture.loads Fixture.dumps Fixture.login "pythx.json" false false w
  = (Ok (Some c), w)
  /\ ps_core Fixture.loads Fixture.dumps Fixture.login Fixture.analysis_list
       "pythx.json" false 20 w
     = (SysExit 0, logged w [Echo GUIDANCE])
  /\ exists events,
       trace (logged w [Echo GUIDANCE]) = trace w ++ events
       /\ Called OpAnalysisList ∉ events.
Proof.
  cbv zeta.
  set (w := Fixture.booted (Fixture.with_config Fixture.trial)).
  set (c := mkClient (Py.VStr PLACEHOLDER) (Py.VStr "trial") (Py.VStr "tok-a")
              (Py.VStr "tok-r") false).
  assert (recover_client Fixture.loads Fixture.dumps Fixture.login "pythx.json"
            false false w = (Ok (Some c), w)) as Hrec by (vm_compute; reflexivity).
  split; [exact Hrec |].
  exact (ps_core_placeholder Fixture.loads Fixture.dumps Fixture.login
           Fixture.analysis_list w w c "pythx.json" false 20 Hrec eq_refl).
Defined.

Lemma ps_number_plus_one_witness :
  let w := Fixture.booted (Fixture.with_config Fixture.registered) in
  let c := mkClient (Py.VStr Fixture.alice) (Py.VStr "trial") (Py.VStr "tok-a")
             (Py.VStr "tok-r") false in
  recover_client Fixture.loads Fixture.dumps Fixture.login "pythx.json" false false w
  = (Ok (Some c), w)
  /\ exists shown,
       shown = take (Z.to_nat (2 + 1)) Fixture.jobs
       /\ Z.of_nat (length shown) = 2 + 1
       /\ ps_core Fixture.loads Fixture.dumps Fixture.login Fixture.analysis_list
            "pythx.json" false 2 w
          = (Ok (mkAnalysisList shown), listed Fixture.dumps "pythx.json" c tt w)
       /\ ps Fixture.loads Fixture.dumps Fixture.tabulate Fixture.login
            Fixture.analysis_list "pythx.json" false 2 w
          = (Ok tt, logged (listed Fixture.dumps "pythx.json" c tt w)
                      [Echo (Fixture.tabulate [] (listing shown))])
       /\ Z.of_nat (length (listing shown)) = 2 + 1.
Proof.
  cbv zeta.
  set (w := Fixture.booted (Fixture.with_config Fixture.registered)).
  set (c := mkClient (Py.VStr Fixture.alice) (Py.VStr "trial") (Py.VStr "tok-a")
              (Py.VStr "tok-r") false).
  assert (recover_client Fixture.loads Fixture.dumps Fixture.login "pythx.json"
            false false w = (Ok (Some c), w)) as Hrec by (vm_compute; reflexivity).
  split; [exact Hrec |].
  refine (ps_number_plus_one Fixture.loads Fixture.dumps Fixture.tabulate Fixture.login
            Fixture.analysis_list w w c c (mkAnalysisList Fixture.jobs) tt
            "pythx.json" false 2 Hrec _ _ _ _).
  - reflexivity.
  - reflexivity.
  - lia.
  - vm_compute. reflexivity.
Defined.

(** ** Further properties of the resolver *)

Section ResolverMore.

Context {service : Type}.
Implicit Types (w : world service) (name text : string) (offset : Z).

(** The resolver returns a position exactly when the file has at least one
    character and the offset does not exceed the length of its text;
    offsets below 1 are not rejected. *)
Theorem resolver_returns_iff w name text offset :
  files w !! name = Some text ->
  (exists position, get_source_location_by_offset name offset w = (Ok position, w))
  <-> (text <> "" /\ offset <= Py.len text).
Proof.
  intros Hfile. rewrite (resolver_unfold _ _ _ _ Hfile).
  destruct (scan_lines _ 0 0 offset) as [p |] eqn:Hscan.
  - split; [| eauto]. intros _.
    destruct (decide (text = "")) as [-> | Hne]; [discriminate |].
    split; [exact Hne |].
    destruct (Z.le_gt_cases offset (Py.len text)) as [Hle | Hgt]; [exact Hle |].
    assert (scan_lines (Py.iter_lines text) 0 0 offset = None) as Hnone
      by (apply scan_lines_None; right; rewrite iter_lines_total; lia).
    congruence.
  - split; [intros (p & Hp); discriminate |].
    intros [Hne Hle]. apply scan_lines_None in Hscan as [Hnil | Hshort].
    + apply iter_lines_nil in Hnil. contradiction.
    + rewrite iter_lines_total in Hshort. lia.
Qed.

(** A larger offset never resolves to an earlier line. *)
Theorem resolver_monotone w name text o1 o2 l1 c1 l2 c2 :
  files w !! name = Some text ->
  o1 <= o2 ->
  get_source_location_by_offset name o1 w = (Ok (l1, c1), w) ->
  get_source_location_by_offset name o2 w = (Ok (l2, c2), w) ->
  l1 <= l2.
Proof.
  intros Hfile Hle Hrun1 Hrun2.
  destruct (resolver_success _ _ _ _ _ _ _ Hfile Hrun1) as [Hs1 _].
  destruct (resolver_success _ _ _ _ _ _ _ Hfile Hrun2) as [Hs2 _].
  apply scan_lines_Some in Hs1 as (k1 & ln1 & _ & -> & _ & _ & Hmin1).
  apply scan_lines_Some in Hs2 as (k2 & ln2 & _ & -> & _ & Hreach2 & _).
  destruct (Nat.le_gt_cases k1 k2) as [? | Hlt]; [lia |].
  specialize (Hmin1 (S k2) ltac:(lia)). lia.
Qed.

(** The position determines the offset: two offsets that resolve to the
    same line and column of a file are equal. *)
Theorem resolver_position_determines_offset w name text o1 o2 ln col :
  files w !! name = Some text ->
  get_source_location_by_offset name o1 w = (Ok (ln, col), w) ->
  get_source_location_by_offset name o2 w = (Ok (ln, col), w) ->
  o1 = o2.
Proof.
  intros Hfile Hrun1 Hrun2.
  destruct (resolver_success _ _ _ _ _ _ _ Hfile Hrun1) as [Hs1 _].
  destruct (resolver_success _ _ _ _ _ _ _ Hfile Hrun2) as [Hs2 _].
  apply scan_lines_Some in Hs1 as (k1 & ln1 & _ & Hl1 & Hc1 & _ & _).
  apply scan_lines_Some in Hs2 as (k2 & ln2 & _ & Hl2 & Hc2 & _ & _).
  assert (k1 = k2) as -> by lia. lia.
Qed.

(** A negative offset is not rejected: on a file with a first line it
    resolves to line 1, with a column beyond the length of that line. *)
Theorem resolver_negative_offset w name text first offset :
  files w !! name = Some text ->
  nth_line text 1 = Some first ->
  offset < 0 ->
  get_source_location_by_offset name offset w = (Ok (1, Py.len first - offset), w)
  /\ Py.len first < Py.len first - offset.
Proof.
  intros Hfile Hfirst Hneg. rewrite (resolver_unfold _ _ _ _ Hfile).
  unfold nth_line in Hfirst. cbn in Hfirst.
  destruct (Py.iter_lines text) as [| h t]; [discriminate |].
  injection Hfirst as ->. cbn [scan_lines].
  pose proof (len_nonneg first).
  destruct (Z.leb_spec offset (0 + Py.len first)); [| lia].
  split; [repeat f_equal; lia | lia].
Qed.

(** The offset that equals the length of the text resolves to the last
    line, column 0. *)
Theorem resolver_end_of_file w name text :
  files w !! name = Some text ->
  text <> "" ->
  get_source_location_by_offset name (Py.len text) w
  = (Ok (Z.of_nat (length (Py.iter_lines text)), 0), w).
Proof.
  intros Hfile Hne. rewrite (resolver_unfold _ _ _ _ Hfile).
  destruct (scan_lines _ 0 0 (Py.len text)) as [[ln col] |] eqn:Hscan.
  - apply scan_lines_Some in Hscan as (k & l & Hk & -> & -> & Hreach & Hmin).
    pose proof (lookup_lt_Some _ _ _ Hk) as Hlt.
    assert (S k = length (Py.iter_lines text)) as Hlast.
    { destruct (decide (S k = length (Py.iter_lines text))) as [? | Hnot]; [assumption |].
      destruct (lookup_lt_is_Some_2 (Py.iter_lines text) (S k) ltac:(lia)) as [l' Hl'].
      pose proof (iter_lines_positive text) as Hpos.
      rewrite Forall_lookup in Hpos. specialize (Hpos _ _ Hl').
      pose proof (cumulative_step _ _ _ Hl') as Hstep.
      pose proof (cumulative_mono (Py.iter_lines text) (S (S k))
                    (length (Py.iter_lines text)) ltac:(lia)) as Hmono.
      rewrite iter_lines_total in Hmono. lia. }
    rewrite Hlast, iter_lines_total. repeat f_equal; lia.
  - apply scan_lines_None in Hscan as [Hnil | Hshort].
    + apply iter_lines_nil in Hnil. contradiction.
    + rewrite iter_lines_total in Hshort. lia.
Qed.

End ResolverMore.

(** ** Further properties of the credential handling *)

Section CredentialsMore.

Context {service : Type}.
Variable json_loads : string -> option Py.value.
Variable json_dumps : Py.value -> string.
Variable api_login : Client -> service -> result Client * service.
Implicit Types (w : world service) (path text : string) (c : Client).

Lemma has_keys_lookup d :
  forallb (has_key (Py.VDict d)) CONFIG_KEYS = true ->
  exists username pass access refresh,
    Py.dict_get d "username" = Some username
    /\ Py.dict_get d "password" = Some pass
    /\ Py.dict_get d "access" = Some access
    /\ Py.dict_get d "refresh" = Some refresh.
Proof.
  unfold CONFIG_KEYS, has_key. cbn [forallb Py.contains].
  rewrite !andb_true_iff, !bool_decide_eq_true.
  intros ([a Ha] & [r Hr] & [u Hu] & [p Hp] & _). eauto 10.
Qed.

(** On a dictionary that holds the four keys, the outcome depends on the
    two tokens alone. *)
Lemma parse_config_dict_run w path text d access refresh (tokens_required : bool) :
  files w !! path = Some text ->
  json_loads text = Some (Py.VDict d) ->
  forallb (has_key (Py.VDict d)) CONFIG_KEYS = true ->
  Py.dict_get d "access" = Some access ->
  Py.dict_get d "refresh" = Some refresh ->
  parse_config json_loads path tokens_required w
  = if tokens_required && negb (Py.truthy access && Py.truthy refresh)
    then (SysExit 1, logged w [tokens_diagnostic path])
    else (Ok (Py.VDict d), w).
Proof.
  intros Hfile Hjson Hkeys Ha Hr.
  rewrite (parse_config_unfold _ _ _ _ _ _ Hfile Hjson).
  rewrite (all_in_container (Py.VDict d) _ _ eq_refl), Hkeys.
  cbn [Py.is_dict andb negb Py.getitem]. rewrite Ha, Hr.
  destruct tokens_required; [| reflexivity]. cbn [andb].
  destruct (Py.truthy access && Py.truthy refresh); reflexivity.
Qed.

(** What [parse_config] does is decided by the file and by what it
    decodes to. No file: [FileNotFoundError]. A text that does not decode:
    [JSONDecodeError]. A decoded value that is no dictionary, list or
    string: [TypeError]. One of those that is no dictionary or lacks a key:
    the key diagnostic and exit status 1. A dictionary with the four keys
    and a falsy token, tokens being required: the token diagnostic and exit
    status 1. Otherwise the decoded dictionary itself is returned. In every
    case files, environment, terminal and service stay as they are, and
    [KeyError] is never raised. *)
Theorem parse_config_outcomes w path (tokens_required : bool) :
  let out := parse_config json_loads path tokens_required w in
  (files w !! path = None /\ out = (Raise Py.FileNotFoundError, w))
  \/ (exists text,
        files w !! path = Some text /\ json_loads text = None
        /\ out = (Raise Py.JSONDecodeError, w))
  \/ (exists text config,
        files w !! path = Some text /\ json_loads text = Some config
        /\ container config = false
        /\ out = (Raise Py.TypeError, w))
  \/ (exists text config,
        files w !! path = Some text /\ json_loads text = Some config
        /\ container config = true
        /\ Py.is_dict config && forallb (has_key config) CONFIG_KEYS = false
        /\ out = (SysExit 1, logged w [keys_diagnostic path]))
  \/ (exists text d access refresh,
        files w !! path = Some text /\ json_loads text = Some (Py.VDict d)
        /\ forallb (has_key (Py.VDict d)) CONFIG_KEYS = true
        /\ Py.dict_get d "access" = Some access
        /\ Py.dict_get d "refresh" = Some refresh
        /\ tokens_required = true
        /\ Py.truthy access && Py.truthy refresh = false
        /\ out = (SysExit 1, logged w [tokens_diagnostic path]))
  \/ (exists text d username pass access refresh,
        files w !! path = Some text /\ json_loads text = Some (Py.VDict d)
        /\ Py.dict_get d "username" = Some username
        /\ Py.dict_get d "password" = Some pass
        /\ Py.dict_get d "access" = Some access
        /\ Py.dict_get d "refresh" = Some refresh
        /\ (tokens_required = true -> Py.truthy access && Py.truthy refresh = true)
        /\ out = (Ok (Py.VDict d), w)).
Proof.
  cbv zeta.
  destruct (files w !! path) as [text |] eqn:Hfile.
  2:{ left. split; [reflexivity |].
      unfold parse_config, mbind, M_bind, read_text. rewrite Hfile. reflexivity. }
  destruct (json_loads text) as [config |] eqn:Hjson.
  2:{ right; left. exists text. split; [reflexivity |]. split; [exact Hjson |].
      unfold parse_config, mbind, M_bind, read_text. rewrite Hfile.
      cbn -[all_in]. rewrite Hjson. reflexivity. }
  destruct (container config) eqn:Hc.
  2:{ right; right; left. exists text, config. repeat (split; [assumption || reflexivity |]).
      rewrite (parse_config_unfold _ _ _ _ _ _ Hfile Hjson). unfold CONFIG_KEYS.
      rewrite (all_in_not_container _ _ _ _ Hc). reflexivity. }
  destruct (Py.is_dict config && forallb (has_key config) CONFIG_KEYS) eqn:Hgood.
  2:{ right; right; right; left. exists text, config.
      repeat (split; [assumption || reflexivity |]).
      rewrite (parse_config_unfold _ _ _ _ _ _ Hfile Hjson), (all_in_container _ _ _ Hc).
      rewrite Hgood. reflexivity. }
  apply andb_true_iff in Hgood as [Hdict Hkeys].
  destruct config as [| | | | | | d]; try discriminate.
  destruct (has_keys_lookup d Hkeys) as (u & p & a & r & Hu & Hp & Ha & Hr).
  pose proof (parse_config_dict_run w path text d a r tokens_required
                Hfile Hjson Hkeys Ha Hr) as Hrun.
  destruct (Py.truthy a && Py.truthy r) eqn:Htokens.
  - right; right; right; right; right. exists text, d, u, p, a, r.
    repeat (split; [assumption || reflexivity |]). split; [intros _; exact Htokens |].
    rewrite Hrun, andb_false_r. reflexivity.
  - destruct tokens_required.
    + right; right; right; right; left. exists text, d, a, r.
      repeat (split; [assumption || reflexivity |]). exact Hrun.
    + right; right; right; right; right. exists text, d, u, p, a, r.
      repeat (split; [assumption || reflexivity |]). split; [discriminate |].
      exact Hrun.
Qed.

End CredentialsMore.

(** ** Recovering the client *)

Section Recovery.

Context {service : Type}.
Variable json_loads : string -> option Py.value.
Variable json_dumps : Py.value -> string.
Variable api_login : Client -> service -> result Client * service.
Implicit Types (w : world service) (path text : string) (c : Client).

Lemma recover_client_existing w path text (staging exit_on_missing : bool) :
  files w !! path = Some text ->
  recover_client json_loads json_dumps api_login path staging exit_on_missing w
  = match parse_config json_loads path true w with
    | (Ok config, w') =>
        (username ← getitem config "username";
         pass ← getitem config "password";
         access ← getitem config "access";
         refresh ← getitem config "refresh";
         mret (Some (mkClient username pass access refresh staging))) w'
    | (SysExit code, w') => (SysExit code, w')
    | (Raise e, w') => (Raise e, w')
    end.
Proof.
  intros Hfile. unfold recover_client, mbind at 1, M_bind at 1, isfile.
  rewrite Hfile, bool_decide_true by eauto. reflexivity.
Qed.

(** With a credential file in place, recovering the client only reads: it
    shows no prompt, sends no login request and writes nothing. What it
    does is decided by what the file decodes to: the failures are those of
    [parse_config] with tokens required, and otherwise the client is the
    one made of the four values stored in the decoded dictionary, whose two
    tokens are truthy. *)
Theorem recover_client_existing_file w path text (staging exit_on_missing : bool) :
  files w !! path = Some text ->
  let out := recover_client json_loads json_dumps api_login path staging
               exit_on_missing w in
  (json_loads text = None /\ out = (Raise Py.JSONDecodeError, w))
  \/ (exists config,
        json_loads text = Some config /\ container config = false
        /\ out = (Raise Py.TypeError, w))
  \/ (exists config,
        json_loads text = Some config /\ container config = true
        /\ Py.is_dict config && forallb (has_key config) CONFIG_KEYS = false
        /\ out = (SysExit 1, logged w [keys_diagnostic path]))
  \/ (exists d access refresh,
        json_loads text = Some (Py.VDict d)
        /\ forallb (has_key (Py.VDict d)) CONFIG_KEYS = true
        /\ Py.dict_get d "access" = Some access
        /\ Py.dict_get d "refresh" = Some refresh
        /\ Py.truthy access && Py.truthy refresh = false
        /\ out = (SysExit 1, logged w [tokens_diagnostic path]))
  \/ (exists d username pass access refresh,
        json_loads text = Some (Py.VDict d)
        /\ Py.dict_get d "username" = Some username
        /\ Py.dict_get d "password" = Some pass
        /\ Py.dict_get d "access" = Some access
        /\ Py.dict_get d "refresh" = Some refresh
        /\ Py.truthy access && Py.truthy refresh = true
        /\ out = (Ok (Some (mkClient username pass access refresh staging)), w)).
Proof.
  intros Hfile. cbv zeta.
  rewrite (recover_client_existing _ _ _ _ _ Hfile).
  destruct (json_loads text) as [config |] eqn:Hjson.
  2:{ left. split; [reflexivity |].
      unfold parse_config, mbind, M_bind, read_text. rewrite Hfile.
      cbn -[all_in]. rewrite Hjson. reflexivity. }
  rewrite (parse_config_unfold _ _ _ _ _ _ Hfile Hjson).
  destruct (container config) eqn:Hc.
  2:{ right; left. exists config. split; [reflexivity |]. split; [exact Hc |].
      unfold CONFIG_KEYS. rewrite (all_in_not_container _ _ _ _ Hc). reflexivity. }
  rewrite (all_in_container _ _ _ Hc).
  destruct (Py.is_dict config && forallb (has_key config) CONFIG_KEYS) eqn:Hgood.
  2:{ right; right; left. exists config.
      split; [reflexivity |]. split; [exact Hc |]. split; [exact Hgood | reflexivity]. }
  apply andb_true_iff in Hgood as [Hdict Hkeys].
  destruct config as [| | | | | | d]; try discriminate.
  destruct (has_keys_lookup d Hkeys) as (u & p & a & r & Hu & Hp & Ha & Hr).
  cbn [negb Py.getitem andb]. rewrite Ha, Hr.
  destruct (Py.truthy a && Py.truthy r) eqn:Htokens.
  - right; right; right; right. exists d, u, p, a, r.
    repeat (split; [assumption || reflexivity |]).
    cbn [negb]. unfold mbind, M_bind, getitem. cbn [Py.getitem].
    rewrite Hu, Hp, Ha, Hr. reflexivity.
  - right; right; right; left. exists d, a, r.
    repeat (split; [assumption || reflexivity |]). reflexivity.
Qed.

(** What [update_config] saves is what the next run recovers: after the
    four values are written, with truthy tokens and a codec that decodes
    what it encoded, [recover_client] returns the client made of them and
    changes nothing. *)
Theorem recover_client_after_update w path (u p a r : Py.value)
    (staging exit_on_missing : bool) :
  json_loads (json_dumps (record_of u p a r)) = Some (record_of u p a r) ->
  Py.truthy a && Py.truthy r = true ->
  (update_config json_dumps path u p a r;;
   recover_client json_loads json_dumps api_login path staging exit_on_missing) w
  = (Ok (Some (mkClient u p a r staging)), updated json_dumps path u p a r w).
Proof.
  intros Hcodec Htokens. unfold mbind at 1, M_bind at 1.
  change (update_config json_dumps path u p a r w)
    with (@Ok unit tt, updated json_dumps path u p a r w).
  cbv beta iota.
  apply (recover_client_from_file json_loads json_dumps api_login _ path
           (json_dumps (record_of u p a r))
           [("username", u); ("password", p); ("access", a); ("refresh", r)]);
    try reflexivity; try assumption.
  cbn [updated files]. apply lookup_insert_eq.
Qed.

(** Saved credentials with a falsy access or refresh token lock the next
    run out: it ends in the token diagnostic and exit status 1. *)
Theorem recover_client_after_update_without_token w path (u p a r : Py.value)
    (staging exit_on_missing : bool) :
  json_loads (json_dumps (record_of u p a r)) = Some (record_of u p a r) ->
  Py.truthy a && Py.truthy r = false ->
  (update_config json_dumps path u p a r;;
   recover_client json_loads json_dumps api_login path staging exit_on_missing) w
  = (SysExit 1, logged (updated json_dumps path u p a r w) [tokens_diagnostic path]).
Proof.
  intros Hcodec Htokens. unfold mbind at 1, M_bind at 1.
  change (update_config json_dumps path u p a r w)
    with (@Ok unit tt, updated json_dumps path u p a r w).
  cbv beta iota.
  assert (files (updated json_dumps path u p a r w) !! path
          = Some (json_dumps (record_of u p a r))) as Hfile
    by (cbn [updated files]; apply lookup_insert_eq).
  rewrite (recover_client_existing _ _ _ _ _ Hfile).
  rewrite (parse_config_dict_run json_loads _ path _
             [("username", u); ("password", p); ("access", a); ("refresh", r)]
             a r true Hfile Hcodec eq_refl eq_refl eq_refl).
  rewrite Htokens. reflexivity.
Qed.

End Recovery.

(** ** First use *)

Section FirstUse.
Context {service : Type}.
Variable json_loads : string -> option Py.value.
Variable json_dumps : Py.value -> string.
Variable api_login : Client -> service -> result Client * service.
Implicit Types (w : world service) (path text : string) (c : Client).

Lemma bind_run {A B} (m : M service A) (k : A -> M service B) w :
  (m ≫= k) w
  = match m w with
    | (Ok a, w') => k a w'
    | (SysExit code, w') => (SysExit code, w')
    | (Raise e, w') => (Raise e, w')
    end.
Proof. reflexivity. Qed.

Lemma environ_or_prompt_frame (name text default : string) w r w1 :
  environ_or_prompt name text default w = (r, w1) ->
  files w1 = files w /\ environ w1 = environ w /\ remote w1 = remote w.
Proof.
  unfold environ_or_prompt, mbind, M_bind, environ_get, prompt.
  repeat case_match; intros [= <- <-]; repeat split; reflexivity.
Qed.

Lemma recover_client_missing w path (staging : bool) :
  files w !! path = None ->
  recover_client json_loads json_dumps api_login path staging false w
  = (eth ← environ_or_prompt "PYTHX_USERNAME" "Please enter your Ethereum address"
            PLACEHOLDER;
     pass ← environ_or_prompt "PYTHX_PASSWORD" "Please enter your MythX password" "trial";
     c ← request OpLogin
           (api_login (mkClient (Py.VStr eth) (Py.VStr pass) Py.VNone Py.VNone staging));
     update_config json_dumps path (Py.VStr eth) (Py.VStr pass)
       (access_token c) (refresh_token c);;
     mret (Some c)) w.
Proof.
  intros Hfile. unfold recover_client, mbind at 1, M_bind at 1, isfile.
  rewrite Hfile, bool_decide_false by (intros [? ?]; discriminate). reflexivity.
Qed.

Lemma environ_or_prompt_answer (name text default v : string) w w2 :
  environ_or_prompt name text default w = (Ok v, w2) ->
  answer_for name default (environ w) (keyboard w) = Some (v, keyboard w2)
  /\ files w2 = files w /\ environ w2 = environ w /\ remote w2 = remote w.
Proof.
  unfold environ_or_prompt, answer_for, mbind, M_bind, environ_get, prompt. cbn.
  destruct (environ w !! name) as [value |]; [destruct (String.eqb value "") |];
    try (intros [= <- <-]; repeat split; reflexivity);
    destruct (keyboard w); try discriminate;
    intros [= <- <-]; repeat split; reflexivity.
Qed.

(** On first use, with no credential file, the file is written only after
    a login that succeeded. Every other way out, an aborted prompt or a
    failed login, leaves the files as they were, and [None] is never
    returned. A run that returns a client took the address and the password
    from the environment or, failing that, from the terminal, logged in
    with exactly these two, and saved them with the tokens of the client
    the login returned. *)
Theorem recover_client_first_use w path (staging : bool) r w1 :
  files w !! path = None ->
  recover_client json_loads json_dumps api_login path staging false w = (r, w1) ->
  match r with
  | Ok (Some c) =>
      exists user keys pass,
        answer_for "PYTHX_USERNAME" PLACEHOLDER (environ w) (keyboard w)
        = Some (user, keys)
        /\ answer_for "PYTHX_PASSWORD" "trial" (environ w) keys
           = Some (pass, keyboard w1)
        /\ api_login (mkClient (Py.VStr user) (Py.VStr pass) Py.VNone Py.VNone staging)
             (remote w)
           = (Ok c, remote w1)
        /\ files w1 = <[path := json_dumps (record_of (Py.VStr user) (Py.VStr pass)
                                              (access_token c) (refresh_token c))]>
                        (files w)
        /\ Called OpLogin ∈ trace w1
  | Ok None => False
  | _ => files w1 = files w
  end.
Proof.
  intros Hfile. rewrite (recover_client_missing _ _ _ Hfile), bind_run.
  destruct (environ_or_prompt "PYTHX_USERNAME" _ _ w) as [[eth | code | e] w2] eqn:Heth;
    [| destruct (environ_or_prompt_frame _ _ _ _ _ _ Heth) as (Hf2 & _ & _);
       intros [= <- <-]; exact Hf2 ..].
  destruct (environ_or_prompt_answer _ _ _ _ _ _ Heth) as (Ha2 & Hf2 & He2 & Hr2).
  rewrite bind_run.
  destruct (environ_or_prompt "PYTHX_PASSWORD" _ _ w2) as [[pass | code | e] w3] eqn:Hpass;
    [| destruct (environ_or_prompt_frame _ _ _ _ _ _ Hpass) as (Hf3 & _ & _);
       intros [= <- <-]; congruence ..].
  destruct (environ_or_prompt_answer _ _ _ _ _ _ Hpass) as (Ha3 & Hf3 & He3 & Hr3).
  rewrite bind_run. unfold request.
  destruct (api_login _ (remote w3)) as [[c | code | e] s'] eqn:Hlogin;
    [| intros [= <- <-]; cbn; congruence ..].
  intros [= <- <-]. exists eth, (keyboard w2), pass. cbn.
  split; [exact Ha2 |]. split; [rewrite <- He2; exact Ha3 |].
  split; [rewrite <- Hr2, <- Hr3; exact Hlogin |].
  split; [rewrite Hf3, Hf2; reflexivity |].
  rewrite elem_of_app, list_elem_of_singleton. right; reflexivity.
Qed.

Lemma environ_or_prompt_set (name text default v : string) w :
  environ w !! name = Some v ->
  v <> "" ->
  environ_or_prompt name text default w = (Ok v, w).
Proof.
  intros Hv Hne. unfold environ_or_prompt, mbind, M_bind, environ_get.
  rewrite Hv. apply String.eqb_neq in Hne. rewrite Hne. reflexivity.
Qed.

Lemma environ_or_prompt_default (name text default : string) (rest : list string) w :
  environ w !! name = None ->
  keyboard w = "" :: rest ->
  environ_or_prompt name text default w
  = (Ok default,
     World (files w) (environ w) rest (remote w) (trace w ++ [Prompted text])).
Proof.
  intros Hv Hkeys. unfold environ_or_prompt, mbind, M_bind, environ_get, prompt.
  rewrite Hv. cbn. rewrite Hkeys. reflexivity.
Qed.

(** On first use with both PYTHX_USERNAME and PYTHX_PASSWORD set and not
    empty, no prompt is shown and nothing is read from the terminal: the
    client logs in with the two values and they are saved with the tokens
    the login returned. *)
Theorem recover_client_from_environment w path (user pass : string) c' s'
    (staging : bool) :
  files w !! path = None ->
  environ w !! "PYTHX_USERNAME" = Some user ->
  user <> "" ->
  environ w !! "PYTHX_PASSWORD" = Some pass ->
  pass <> "" ->
  api_login (mkClient (Py.VStr user) (Py.VStr pass) Py.VNone Py.VNone staging) (remote w)
  = (Ok c', s') ->
  recover_client json_loads json_dumps api_login path staging false w
  = (Ok (Some c'),
     updated json_dumps path (Py.VStr user) (Py.VStr pass)
       (access_token c') (refresh_token c') (answered OpLogin s' w)).
Proof.
  intros Hfile Huser Hu Hpass Hp Hlogin.
  rewrite (recover_client_missing _ _ _ Hfile), bind_run.
  rewrite (environ_or_prompt_set _ _ _ _ _ Huser Hu), bind_run.
  rewrite (environ_or_prompt_set _ _ _ _ _ Hpass Hp), bind_run.
  unfold request. rewrite Hlogin. reflexivity.
Qed.

(** On first use with neither variable set, an empty answer at both
    prompts selects the defaults: the placeholder address and the trial
    password. *)
Theorem recover_client_defaults w path (rest : list string) c' s' (staging : bool) :
  files w !! path = None ->
  environ w !! "PYTHX_USERNAME" = None ->
  environ w !! "PYTHX_PASSWORD" = None ->
  keyboard w = "" :: "" :: rest ->
  api_login (mkClient (Py.VStr PLACEHOLDER) (Py.VStr "trial") Py.VNone Py.VNone staging)
    (remote w) = (Ok c', s') ->
  exists w1,
    recover_client json_loads json_dumps api_login path staging false w
    = (Ok (Some c'), w1)
    /\ keyboard w1 = rest
    /\ files w1 !! path
       = Some (json_dumps (record_of (Py.VStr PLACEHOLDER) (Py.VStr "trial")
                             (access_token c') (refresh_token c')))
    /\ trace w1 = trace w ++ [Prompted "Please enter your Ethereum address";
                               Prompted "Please enter your MythX password";
                               Called OpLogin].
Proof.
  intros Hfile Huser Hpass Hkeys Hlogin.
  rewrite (recover_client_missing _ _ _ Hfile), bind_run.
  rewrite (environ_or_prompt_default _ _ _ ("" :: rest) _ Huser Hkeys), bind_run.
  rewrite (environ_or_prompt_default _ _ _ rest
             (World (files w) (environ w) ("" :: rest) (remote w)
                (trace w ++ [Prompted "Please enter your Ethereum address"]))
             Hpass eq_refl), bind_run.
  unfold request. cbn [remote]. rewrite Hlogin.
  eexists. split; [reflexivity |]. cbn.
  split; [reflexivity |]. split; [apply lookup_insert_eq |].
  rewrite <- !app_assoc. reflexivity.
Qed.

End FirstUse.

(** ** Further properties of the listing *)

Section ListingMore.

Context {service : Type}.
Variable json_loads : string -> option Py.value.
Variable json_dumps : Py.value -> string.
Variable tabulate : list string -> list (list Py.value) -> string.
Variable api_login : Client -> service -> result Client * service.
Variable api_analysis_list : Client -> service -> result (Client * AnalysisList) * service.
Implicit Types (w : world service) (c : Client).

(** With no more than N+1 analyses in the response, N in 1..100, nothing
    is cut: [ps] prints every analysis of the response, in its order, and
    an empty response gives a table without rows. *)
Theorem ps_few_analyses w w1 c c' resp s' (config : string) (staging : bool)
    (number : Z) :
  recover_client json_loads json_dumps api_login config staging false w
  = (Ok (Some c), w1) ->
  Py.eq_str (eth_address c) PLACEHOLDER = false ->
  api_analysis_list c (remote w1) = (Ok (c', resp), s') ->
  1 <= number <= 100 ->
  Z.of_nat (length (analyses resp)) <= number + 1 ->
  ps json_loads json_dumps tabulate api_login api_analysis_list config staging number w
  = (Ok tt, logged (listed json_dumps config c' s' w1)
              [Echo (tabulate [] (listing (analyses resp)))]).
Proof.
  intros Hrec Haddr Hlist Hrange Hfew.
  unfold ps, mbind at 1, M_bind.
  rewrite (ps_core_lists _ _ _ _ _ _ _ _ _ _ config staging number Hrec Haddr Hlist).
  cbn [analyses]. unfold Py.slice_to.
  destruct (Z.leb_spec 0 (number + 1)); [| lia].
  rewrite take_ge by lia. reflexivity.
Qed.

(** A failure of the analysis-list request goes through [ps] uncaught: no
    table is printed and the credential file is not rewritten. *)
Theorem ps_service_failure w w1 c e s' (config : string) (staging : bool) (number : Z) :
  recover_client json_loads json_dumps api_login config staging false w
  = (Ok (Some c), w1) ->
  Py.eq_str (eth_address c) PLACEHOLDER = false ->
  api_analysis_list c (remote w1) = (Raise e, s') ->
  ps json_loads json_dumps tabulate api_login api_analysis_list config staging number w
  = (Raise e, answered OpAnalysisList s' w1).
Proof.
  intros Hrec Haddr Hlist.
  unfold ps, ps_core, mbind, M_bind. rewrite Hrec. cbn.
  rewrite Haddr. unfold request. rewrite Hlist. reflexivity.
Qed.

(** The tokens a listing leaves in the client are the ones the next run
    starts from: after [ps_core] has returned, [recover_client] yields the
    client made of the values the service handed back. *)
Theorem ps_core_then_recover w w1 c c' resp s' (config : string) (staging : bool)
    (number : Z) :
  recover_client json_loads json_dumps api_login config staging false w
  = (Ok (Some c), w1) ->
  Py.eq_str (eth_address c) PLACEHOLDER = false ->
  api_analysis_list c (remote w1) = (Ok (c', resp), s') ->
  json_loads (json_dumps (record_of (eth_address c') (password c') (access_token c')
                            (refresh_token c')))
  = Some (record_of (eth_address c') (password c') (access_token c') (refresh_token c')) ->
  Py.truthy (access_token c') && Py.truthy (refresh_token c') = true ->
  (ps_core json_loads json_dumps api_login api_analysis_list config staging number;;
   recover_client json_loads json_dumps api_login config staging false) w
  = (Ok (Some (mkClient (eth_address c') (password c') (access_token c')
                 (refresh_token c') staging)),
     listed json_dumps config c' s' w1).
Proof.
  intros Hrec Haddr Hlist Hcodec Htokens.
  unfold mbind at 1, M_bind at 1.
  rewrite (ps_core_lists _ _ _ _ _ _ _ _ _ _ config staging number Hrec Haddr Hlist).
  apply (recover_client_from_file json_loads json_dumps api_login _ config
           (saved json_dumps c')
           [("username", eth_address c'); ("password", password c');
            ("access", access_token c'); ("refresh", refresh_token c')]);
    try reflexivity; try assumption.
  cbn [listed files]. apply lookup_insert_eq.
Qed.

End ListingMore.

(** ** Further properties of the report *)

Section ReportMore.

Context {service : Type}.
Variable json_loads : string -> option Py.value.
Variable json_dumps : Py.value -> string.
Variable tabulate : list string -> list (list Py.value) -> string.
Variable api_login : Client -> service -> result Client * service.
Variable api_report : Client -> string -> service -> result (Client * Report) * service.
Implicit Types (w : world service) (c : Client) (sources : list string).

Lemma errors_only_same {A} (m : M service A) :
  (forall w r w1, m w = (r, w1) -> w1 = w) -> errors_only m.
Proof.
  intros Hsame w r w1 Hrun. rewrite (Hsame _ _ _ Hrun).
  repeat split. exists []. rewrite app_nil_r. split; [reflexivity | constructor].
Qed.

Lemma errors_only_bind {A B} (m : M service A) (k : A -> M service B) :
  errors_only m -> (forall a, errors_only (k a)) -> errors_only (m ≫= k).
Proof.
  intros Hm Hk w r w2. rewrite bind_run.
  destruct (m w) as [[a | code | e] w1] eqn:Hrun;
    destruct (Hm _ _ _ Hrun) as (Hf1 & Hr1 & ev1 & Ht1 & He1).
  - intros Hrest. destruct (Hk a _ _ _ Hrest) as (Hf2 & Hr2 & ev2 & Ht2 & He2).
    split; [congruence |]. split; [congruence |].
    exists (ev1 ++ ev2). rewrite Ht2, Ht1, app_assoc.
    split; [reflexivity | apply Forall_app; split; assumption].
  - intros [= <- <-]. eauto 10.
  - intros [= <- <-]. eauto 10.
Qed.

Lemma errors_only_ret {A} (a : A) : errors_only (mret a : M service A).
Proof. apply errors_only_same. intros w r w1 [= <- <-]. reflexivity. Qed.

Lemma errors_only_raise {A} (e : Py.exn) : errors_only (raise e : M service A).
Proof. apply errors_only_same. intros w r w1 [= <- <-]. reflexivity. Qed.

Lemma errors_only_or_raise {A} (o : option A) (e : Py.exn) :
  errors_only (or_raise (service := service) o e).
Proof. destruct o; [apply errors_only_ret | apply errors_only_raise]. Qed.

Lemma errors_only_resolver (name : string) (offset : Z) :
  errors_only (get_source_location_by_offset (service := service) name offset).
Proof.
  intros w r w1. unfold get_source_location_by_offset, mbind, M_bind, read_text.
  destruct (files w !! name) as [text |]; [| intros [= <- <-]].
  - destruct (scan_lines _ 0 0 offset); intros [= <- <-].
    + repeat split. exists []. rewrite app_nil_r. split; [reflexivity | constructor].
    + repeat split. eexists. split; [reflexivity |]. repeat constructor.
  - repeat split. exists []. rewrite app_nil_r. split; [reflexivity | constructor].
Qed.

Lemma errors_only_resolve_locations sources (source_locs : list (list string)) :
  forall vars, errors_only (resolve_locations (service := service) sources source_locs vars).
Proof.
  induction source_locs as [| loc rest IH]; intros vars; [apply errors_only_ret |].
  cbn [resolve_locations].
  destruct loc as [| offset [| len [| file_idx [| ? ?]]]]; try apply errors_only_raise.
  destruct sources as [| s0 ss]; [apply IH |].
  do 3 (apply errors_only_bind; [apply errors_only_or_raise | intros ?]).
  apply errors_only_bind; [apply errors_only_resolver | intros [l c]].
  apply IH.
Qed.

Lemma errors_only_aggregate sources (todo : list Issue) :
  forall vars acc, errors_only (aggregate (service := service) sources todo vars acc).
Proof.
  induction todo as [| issue rest IH]; intros vars acc; [apply errors_only_ret |].
  cbn [aggregate].
  apply errors_only_bind; [apply errors_only_resolve_locations | intros ?].
  do 3 (apply errors_only_bind; [apply errors_only_or_raise | intros ?]).
  apply IH.
Qed.


Lemma file_names_append_row (name : string) (r : row) (m : list (string * list row)) :
  file_names (append_row name r m)
  = if bool_decide (name ∈ file_names m) then file_names m else file_names m ++ [name].
Proof.
  induction m as [| [k rows] others IH]; [reflexivity |].
  cbn [append_row file_names List.map fst] in *.
  destruct (String.eqb_spec k name) as [-> | Hne].
  - rewrite bool_decide_true by (left). reflexivity.
  - cbn [List.map fst]. fold (file_names (append_row name r others)). rewrite IH.
    fold (file_names others).
    destruct (bool_decide_reflect (name ∈ file_names others)) as [Hin | Hout].
    + rewrite bool_decide_true by (right; exact Hin). reflexivity.
    + rewrite bool_decide_false; [reflexivity |].
      rewrite elem_of_cons. intros [-> | ?]; [apply Hne; reflexivity | contradiction].
Qed.

Lemma index_elem_of {A} (l : list A) (i : Z) (x : A) : Py.index l i = Some x -> x ∈ l.
Proof.
  unfold Py.index. repeat case_match; try discriminate;
    intros Hx; apply list_elem_of_lookup; eauto.
Qed.

Lemma resolve_locations_names sources (source_locs : list (list string)) :
  sources <> [] ->
  forall vars w vars' w',
    (forall n, filename vars = Some n -> n ∈ sources) ->
    resolve_locations sources source_locs vars w = (Ok vars', w') ->
    forall n, filename vars' = Some n -> n ∈ sources.
Proof.
  intros Hne. induction source_locs as [| loc rest IH]; intros vars w vars' w' Hvars.
  - intros [= <- <-]. exact Hvars.
  - cbn [resolve_locations].
    destruct loc as [| offset [| len [| file_idx [| ? ?]]]]; try discriminate.
    destruct sources as [| s0 ss]; [contradiction |].
    rewrite bind_run. unfold or_raise at 1.
    destruct (Py.int file_idx) as [idx |]; [| discriminate]. cbn [mret M_ret].
    rewrite bind_run. unfold or_raise at 1.
    destruct (Py.index (s0 :: ss) idx) as [name |] eqn:Hname; [| discriminate].
    cbn [mret M_ret].
    rewrite bind_run. unfold or_raise at 1.
    destruct (Py.int offset) as [off |]; [| discriminate]. cbn [mret M_ret].
    rewrite bind_run.
    destruct (get_source_location_by_offset name off w) as [[[l c] | code | e] w1];
      try discriminate.
    apply IH. cbn [filename]. intros n [= <-]. exact (index_elem_of _ _ _ Hname).
Qed.

Lemma aggregate_names sources (todo : list Issue) :
  sources <> [] ->
  forall vars acc w out w',
    (forall n, filename vars = Some n -> n ∈ sources) ->
    (forall n, n ∈ file_names acc -> n ∈ sources) ->
    aggregate sources todo vars acc w = (Ok out, w') ->
    forall n, n ∈ file_names out -> n ∈ sources.
Proof.
  intros Hne. induction todo as [| issue rest IH]; intros vars acc w out w' Hvars Hacc.
  - intros [= <- <-]. exact Hacc.
  - cbn [aggregate]. rewrite bind_run.
    destruct (resolve_locations _ _ _ w) as [[v | code | e] w1] eqn:Hres; try discriminate.
    pose proof (resolve_locations_names _ _ Hne _ _ _ _ Hvars Hres) as Hv.
    unfold mbind, M_bind, or_raise.
    destruct (filename v) as [name |] eqn:Hn, (line v), (column v); cbn; try discriminate.
    apply IH; [intros n Hn'; apply Hv; congruence |].
    intros n. rewrite file_names_append_row. case_bool_decide; [apply Hacc |].
    rewrite elem_of_app, list_elem_of_singleton. intros [? | ->]; auto.
Qed.

(** When the report names its source files, every file under which rows
    are recorded is one of them. *)
Theorem aggregate_files_from_source_list sources (todo : list Issue) w out w' :
  sources <> [] ->
  aggregate sources todo (mkLocals None None None) [] w = (Ok out, w') ->
  forall n, n ∈ file_names out -> n ∈ sources.
Proof.
  intros Hne Hrun.
  apply (aggregate_names sources todo Hne (mkLocals None None None) [] w out w');
    [discriminate | | exact Hrun].
  intros n Hn. inversion Hn.
Qed.


Lemma render_returns (m : list (string * list row)) :
  forall w, exists w', render tabulate m w = (Ok tt, w').
Proof.
  induction m as [| [name data] others IH]; intros w; [eexists; reflexivity |].
  cbn [render]. unfold mbind, M_bind, echo, emit. cbn. apply IH.
Qed.

Lemma report_run w w1 c c' resp s' (config : string) (staging : bool) (uuid : string) :
  recover_client json_loads json_dumps api_login config staging false w
  = (Ok (Some c), w1) ->
  api_report c uuid (remote w1) = (Ok (c', resp), s') ->
  report json_loads json_dumps tabulate api_login api_report config staging uuid w
  = match aggregate (source_list resp) (issues resp) (mkLocals None None None) []
            (answered (OpReport uuid) s' w1) with
    | (Ok file_to_issue, w2) =>
        (render tabulate file_to_issue;;
         update_config json_dumps config (eth_address c') (password c')
           (access_token c') (refresh_token c')) w2
    | (SysExit code, w2) => (SysExit code, w2)
    | (Raise e, w2) => (Raise e, w2)
    end.
Proof.
  intros Hrec Hrep. unfold report. rewrite bind_run, Hrec. cbn [or_raise].
  rewrite bind_run. cbn [mret M_ret]. rewrite bind_run. unfold request at 1.
  rewrite Hrep. rewrite bind_run. reflexivity.
Qed.

(** A report that does not run to its end prints no table and does not
    rewrite the credential file: once the response is in, all that a
    failing run adds to the trace are error records of the resolver. *)
Theorem report_all_or_nothing w w1 c c' resp s' (config : string) (staging : bool)
    (uuid : string) r w3 :
  recover_client json_loads json_dumps api_login config staging false w
  = (Ok (Some c), w1) ->
  api_report c uuid (remote w1) = (Ok (c', resp), s') ->
  report json_loads json_dumps tabulate api_login api_report config staging uuid w
  = (r, w3) ->
  r <> Ok tt ->
  files w3 = files w1
  /\ exists events,
       trace w3 = trace w1 ++ Called (OpReport uuid) :: events
       /\ Forall is_log_error events.
Proof.
  intros Hrec Hrep Hrun Hfail. rewrite (report_run _ _ _ _ _ _ _ _ _ Hrec Hrep) in Hrun.
  destruct (aggregate _ _ _ _ _) as [[m | code | e] w2] eqn:Hagg.
  - exfalso. rewrite bind_run in Hrun.
    destruct (render_returns m w2) as [w2' Hrender]. rewrite Hrender in Hrun.
    injection Hrun as <- _. apply Hfail. reflexivity.
  - injection Hrun as <- <-.
    destruct (errors_only_aggregate _ _ _ _ _ _ _ Hagg) as (Hf & _ & events & Ht & He).
    split; [exact Hf |]. exists events. split; [| exact He].
    rewrite Ht. cbn [answered trace]. rewrite <- app_assoc. reflexivity.
  - injection Hrun as <- <-.
    destruct (errors_only_aggregate _ _ _ _ _ _ _ Hagg) as (Hf & _ & events & Ht & He).
    split; [exact Hf |]. exists events. split; [| exact He].
    rewrite Ht. cbn [answered trace]. rewrite <- app_assoc. reflexivity.
Qed.

Lemma resolve_locations_unmapped (maps : list string) :
  forall vars w,
    resolve_locations [] (List.map (Py.split ":") maps) vars w
    = if forallb three_fields maps
      then (Ok (mkLocals (match maps with [] => filename vars | _ => Some "Unknown" end)
                  (line vars) (column vars)), w)
      else (Raise Py.ValueError, w).
Proof.
  induction maps as [| m rest IH]; intros vars w.
  - destruct vars. reflexivity.
  - cbn [forallb List.map resolve_locations]. unfold three_fields at 1.
    destruct (Py.split ":" m) as [| a [| b [| d [| ? ?]]]]; try reflexivity.
    rewrite IH. cbn [andb filename line column].
    destruct (forallb three_fields rest); [| reflexivity].
    destruct rest; reflexivity.
Qed.

(** When the response names no source files, a report with at least one
    issue never gets to print: the source maps of the first issue are
    split, and either one of them does not have three fields, which raises
    [ValueError], or the row is built from a name that was never bound,
    which raises [UnboundLocalError]. *)
Theorem report_without_source_list w w1 c c' issue rest s' (config : string)
    (staging : bool) (uuid : string) :
  recover_client json_loads json_dumps api_login config staging false w
  = (Ok (Some c), w1) ->
  api_report c uuid (remote w1) = (Ok (c', mkReport (issue :: rest) []), s') ->
  report json_loads json_dumps tabulate api_login api_report config staging uuid w
  = (Raise (if forallb three_fields (locations issue)
            then Py.UnboundLocalError else Py.ValueError),
     answered (OpReport uuid) s' w1).
Proof.
  intros Hrec Hrep. rewrite (report_run _ _ _ _ _ _ _ _ _ Hrec Hrep).
  cbn [source_list issues aggregate]. rewrite bind_run.
  rewrite resolve_locations_unmapped.
  destruct (forallb three_fields (locations issue)); [| reflexivity].
  cbn [filename line column]. destruct (locations issue); reflexivity.
Qed.

(** One location past the end of its file stops the whole report: the
    resolver logs the error and the process leaves with exit status 1
    before any table is printed. *)
Theorem report_offset_beyond_end w w1 c c' issue rest sources s' (config : string)
    (staging : bool) (uuid : string) (loc : string) (more : list string)
    (off len idx name text : string) (i o : Z) :
  recover_client json_loads json_dumps api_login config staging false w
  = (Ok (Some c), w1) ->
  api_report c uuid (remote w1) = (Ok (c', mkReport (issue :: rest) sources), s') ->
  locations issue = loc :: more ->
  Py.split ":" loc = [off; len; idx] ->
  Py.int idx = Some i ->
  Py.index sources i = Some name ->
  Py.int off = Some o ->
  files w1 !! name = Some text ->
  Py.len text < o ->
  report json_loads json_dumps tabulate api_login api_report config staging uuid w
  = (SysExit 1, logged (answered (OpReport uuid) s' w1) [not_found name o]).
Proof.
  intros Hrec Hrep Hlocs Hsplit Hidx Hname Hoff Hfile Hbeyond.
  rewrite (report_run _ _ _ _ _ _ _ _ _ Hrec Hrep).
  cbn [source_list issues aggregate]. rewrite bind_run, Hlocs.
  cbn [List.map resolve_locations]. rewrite Hsplit.
  destruct sources as [| s0 ss]; [apply index_elem_of in Hname; inversion Hname |].
  rewrite bind_run, Hidx. cbn [or_raise mret M_ret].
  rewrite bind_run, Hname. cbn [or_raise mret M_ret].
  rewrite bind_run, Hoff. cbn [or_raise mret M_ret].
  rewrite bind_run.
  rewrite (resolver_unfold (answered (OpReport uuid) s' w1) name text o Hfile).
  assert (scan_lines (Py.iter_lines text) 0 0 o = None) as ->; [| reflexivity].
  apply scan_lines_None. right. rewrite iter_lines_total. lia.
Qed.

End ReportMore.

(** ** Session commands and submission *)

Section Commands.

Context {service : Type}.
Variable json_loads : string -> option Py.value.
Variable json_dumps : Py.value -> string.
Variable api_login : Client -> service -> result Client * service.
Variable str_of : Py.value -> string.
Variable abspath : string -> string.
Variable api_logout : Client -> service -> result unit * service.
Variable api_analyze :
  Client -> option string -> list (string * string) -> service
  -> result (Client * Py.value) * service.
Implicit Types (w : world service) (c : Client) (config text : string).

(** Without a credential file [logout] asks for nothing and calls nothing:
    it says that the user is already logged out and leaves with exit
    status 0. *)
Theorem logout_without_file w config (staging : bool) :
  files w !! config = None ->
  logout json_loads json_dumps api_login api_logout config staging w
  = (SysExit 0, logged w [Echo "You are already logged out."]).
Proof.
  intros Hfile. unfold logout, recover_client. rewrite bind_run.
  unfold mbind at 1, M_bind at 1, isfile.
  rewrite Hfile, bool_decide_false by (intros [? ?]; discriminate). reflexivity.
Qed.

Lemma logout_run w config text d username pass access refresh (staging : bool) :
  files w !! config = Some text ->
  json_loads text = Some (Py.VDict d) ->
  Py.dict_get d "username" = Some username ->
  Py.dict_get d "password" = Some pass ->
  Py.dict_get d "access" = Some access ->
  Py.dict_get d "refresh" = Some refresh ->
  Py.truthy access && Py.truthy refresh = true ->
  logout json_loads json_dumps api_login api_logout config staging w
  = match api_logout (mkClient username pass access refresh staging) (remote w) with
    | (Ok _, s') =>
        (Ok tt, logged (served s' (removed config w)) [Echo "Successfully logged out"])
    | (SysExit code, s') => (SysExit code, served s' (removed config w))
    | (Raise e, s') => (Raise e, served s' (removed config w))
    end.
Proof.
  intros Hfile Hjson Hu Hp Ha Hr Htokens. unfold logout. rewrite bind_run.
  rewrite (recover_client_from_file json_loads json_dumps api_login w config text d
             _ _ _ _ staging true Hfile Hjson Hu Hp Ha Hr Htokens).
  rewrite bind_run. unfold os_remove at 1. rewrite Hfile.
  rewrite bind_run. unfold call at 1. cbn [remote].
  destruct (api_logout _ (remote w)) as [[[] | code | e] s']; reflexivity.
Qed.

(** Logging out removes the credential file, so a second [logout] finds
    nothing to do: the first run reports success, the second one that the
    user is already logged out, with exit status 0. *)
Theorem logout_twice w config text d username pass access refresh (staging : bool) s' :
  files w !! config = Some text ->
  json_loads text = Some (Py.VDict d) ->
  Py.dict_get d "username" = Some username ->
  Py.dict_get d "password" = Some pass ->
  Py.dict_get d "access" = Some access ->
  Py.dict_get d "refresh" = Some refresh ->
  Py.truthy access && Py.truthy refresh = true ->
  api_logout (mkClient username pass access refresh staging) (remote w) = (Ok tt, s') ->
  (logout json_loads json_dumps api_login api_logout config staging;;
   logout json_loads json_dumps api_login api_logout config staging) w
  = (SysExit 0,
     logged (served s' (removed config w))
       [Echo "Successfully logged out"; Echo "You are already logged out."]).
Proof.
  intros Hfile Hjson Hu Hp Ha Hr Htokens Hout. rewrite bind_run.
  rewrite (logout_run w config text d _ _ _ _ staging Hfile Hjson Hu Hp Ha Hr Htokens).
  rewrite Hout. unfold logout, recover_client. rewrite bind_run.
  unfold mbind at 1, M_bind at 1, isfile. cbn [logged served removed files].
  rewrite lookup_delete_eq, bool_decide_false by (intros [? ?]; discriminate).
  unfold mbind, M_bind, echo, emit, sys_exit, logged. cbn.
  rewrite <- app_assoc. reflexivity.
Qed.

(** The credential file is removed before the service is asked to log
    out: when that request fails, the failure goes through uncaught and the
    file is already gone. *)
Theorem logout_remote_failure w config text d username pass access refresh
    (staging : bool) e s' :
  files w !! config = Some text ->
  json_loads text = Some (Py.VDict d) ->
  Py.dict_get d "username" = Some username ->
  Py.dict_get d "password" = Some pass ->
  Py.dict_get d "access" = Some access ->
  Py.dict_get d "refresh" = Some refresh ->
  Py.truthy access && Py.truthy refresh = true ->
  api_logout (mkClient username pass access refresh staging) (remote w) = (Raise e, s') ->
  logout json_loads json_dumps api_login api_logout config staging w
  = (Raise e, served s' (removed config w))
  /\ files (served s' (removed config w)) !! config = None.
Proof.
  intros Hfile Hjson Hu Hp Ha Hr Htokens Hout.
  rewrite (logout_run w config text d _ _ _ _ staging Hfile Hjson Hu Hp Ha Hr Htokens).
  rewrite Hout. split; [reflexivity |]. cbn. apply lookup_delete_eq.
Qed.

(** A credential file that [parse_config] rejects cannot be logged out
    of: [logout] ends in the diagnostic and exit status 1, the file stays
    and the service is not called. *)
Theorem logout_rejected_credentials w config text cfg (staging : bool) :
  files w !! config = Some text ->
  json_loads text = Some cfg ->
  container cfg = true ->
  Py.is_dict cfg && forallb (has_key cfg) CONFIG_KEYS = false ->
  logout json_loads json_dumps api_login api_logout config staging w
  = (SysExit 1, logged w [keys_diagnostic config]).
Proof.
  intros Hfile Hjson Hc Hbad. unfold logout. rewrite bind_run.
  rewrite (recover_client_existing _ _ _ _ _ _ _ _ Hfile).
  rewrite (parse_config_unfold _ _ _ _ _ _ Hfile Hjson), (all_in_container _ _ _ Hc).
  rewrite Hbad. reflexivity.
Qed.

Lemma login_run w w1 c (config : string) (staging : bool) :
  recover_client json_loads json_dumps api_login config staging false w
  = (Ok (Some c), w1) ->
  login json_loads json_dumps api_login str_of config staging w
  = match api_login c (remote w1) with
    | (Ok c2, s2) =>
        (Ok tt,
         updated json_dumps config (eth_address c2) (password c2) (access_token c2)
           (refresh_token c2)
           (logged (answered OpLogin s2 w1)
              [Echo ("Successfully logged in as " +:+ str_of (eth_address c2))]))
    | (SysExit code, s2) => (SysExit code, answered OpLogin s2 w1)
    | (Raise e, s2) => (Raise e, answered OpLogin s2 w1)
    end.
Proof.
  intros Hrec. unfold login. rewrite bind_run, Hrec. cbn [or_raise].
  rewrite bind_run. cbn [mret M_ret]. rewrite bind_run. unfold request at 1.
  destruct (api_login c (remote w1)) as [[c2 | code | e] s2]; reflexivity.
Qed.

(** On first use [login] logs in twice: once while the client is set up
    and the credentials are saved, once more by the command itself, whose
    tokens then replace the saved ones. With both environment variables set
    nothing is asked at the terminal. *)
Theorem login_first_use_logs_in_twice w config (user pass : string) c1 s1 c2 s2
    (staging : bool) :
  files w !! config = None ->
  environ w !! "PYTHX_USERNAME" = Some user ->
  user <> "" ->
  environ w !! "PYTHX_PASSWORD" = Some pass ->
  pass <> "" ->
  api_login (mkClient (Py.VStr user) (Py.VStr pass) Py.VNone Py.VNone staging) (remote w)
  = (Ok c1, s1) ->
  api_login c1 s1 = (Ok c2, s2) ->
  exists w2,
    login json_loads json_dumps api_login str_of config staging w = (Ok tt, w2)
    /\ trace w2 = trace w ++ [Called OpLogin; Called OpLogin;
                               Echo ("Successfully logged in as "
                                     +:+ str_of (eth_address c2))]
    /\ files w2 !! config
       = Some (json_dumps (record_of (eth_address c2) (password c2) (access_token c2)
                             (refresh_token c2)))
    /\ keyboard w2 = keyboard w.
Proof.
  intros Hfile Huser Hu Hpass Hp Hlogin1 Hlogin2.
  assert (recover_client json_loads json_dumps api_login config staging false w
          = (Ok (Some c1),
             updated json_dumps config (Py.VStr user) (Py.VStr pass)
               (access_token c1) (refresh_token c1) (answered OpLogin s1 w))) as Hrec.
  { rewrite (recover_client_missing _ _ _ _ _ _ Hfile), bind_run.
    rewrite (environ_or_prompt_set _ _ _ _ _ Huser Hu), bind_run.
    rewrite (environ_or_prompt_set _ _ _ _ _ Hpass Hp), bind_run.
    unfold request. rewrite Hlogin1. reflexivity. }
  rewrite (login_run _ _ _ _ _ Hrec). cbn [updated answered remote].
  rewrite Hlogin2. eexists. split; [reflexivity |]. cbn.
  split; [rewrite <- !app_assoc; reflexivity |].
  split; [apply lookup_insert_eq | reflexivity].
Qed.

(** A login that fails leaves the stored credentials as they were and
    prints no success message. *)
Theorem login_failure_keeps_credentials w config text d username pass access refresh
    (staging : bool) e s2 :
  files w !! config = Some text ->
  json_loads text = Some (Py.VDict d) ->
  Py.dict_get d "username" = Some username ->
  Py.dict_get d "password" = Some pass ->
  Py.dict_get d "access" = Some access ->
  Py.dict_get d "refresh" = Some refresh ->
  Py.truthy access && Py.truthy refresh = true ->
  api_login (mkClient username pass access refresh staging) (remote w) = (Raise e, s2) ->
  login json_loads json_dumps api_login str_of config staging w
  = (Raise e, answered OpLogin s2 w)
  /\ files (answered OpLogin s2 w) !! config = Some text.
Proof.
  intros Hfile Hjson Hu Hp Ha Hr Htokens Hlogin.
  rewrite (login_run w w (mkClient username pass access refresh staging) config staging).
  - rewrite Hlogin. split; [reflexivity | exact Hfile].
  - apply (recover_client_from_file json_loads json_dumps api_login w config text d);
      assumption.
Qed.


(** Files given on the command line replace what is passed inline: with
    a bytecode file and a source file, whatever the inline bytecode and
    source are, [check] submits the content of the bytecode file and, as the
    only source, the content of the source file under its absolute path,
    both without the white space around them. *)
Theorem check_files_override_inline w w1 c c' job s' config (staging : bool)
    (inline_bytecode inline_source : option string)
    (bytecode_name source_name bytecode_text source_text : string) :
  recover_client json_loads json_dumps api_login config staging false w
  = (Ok (Some c), w1) ->
  bytecode_name <> "" ->
  source_name <> "" ->
  files w1 !! bytecode_name = Some bytecode_text ->
  files w1 !! source_name = Some source_text ->
  api_analyze c (Some (PyText.strip bytecode_text))
    [(abspath source_name, PyText.strip source_text)] (remote w1)
  = (Ok (c', job), s') ->
  check json_loads json_dumps api_login str_of abspath api_analyze config staging
    inline_bytecode inline_source (Some bytecode_name) (Some source_name) w
  = (Ok tt,
     updated json_dumps config (eth_address c') (password c') (access_token c')
       (refresh_token c')
       (logged (served s' w1) [Echo ("Analysis submitted as job " +:+ str_of job)])).
Proof.
  intros Hrec Hbname Hsname Hbfile Hsfile Hsubmit. unfold check.
  rewrite bind_run, Hrec. cbn [or_raise]. rewrite bind_run. cbn [mret M_ret PyText.given].
  apply String.eqb_neq in Hbname, Hsname. rewrite Hbname, Hsname. cbn [negb].
  rewrite bind_run. unfold mbind at 1, M_bind at 1, read_text at 1. rewrite Hbfile.
  cbn [mret M_ret]. rewrite bind_run.
  unfold mbind at 1, M_bind at 1, read_text at 1. rewrite Hsfile.
  cbn [mret M_ret]. rewrite bind_run. unfold call at 1. rewrite Hsubmit. reflexivity.
Qed.


End Commands.

(** ** The further theorems at concrete inputs *)

Lemma resolver_returns_iff_witness :
  (exists position,
     get_source_location_by_offset "a.sol" 5 Scenario.fresh = (Ok position, Scenario.fresh))
  <-> (Fixture.abc_def <> "" /\ 5 <= Py.len Fixture.abc_def).
Proof.
  apply (resolver_returns_iff Scenario.fresh "a.sol" Fixture.abc_def 5).
  vm_compute. reflexivity.
Defined.

Lemma resolver_monotone_witness :
  get_source_location_by_offset "a.sol" 4 Scenario.fresh = (Ok (1, 0), Scenario.fresh)
  /\ get_source_location_by_offset "a.sol" 5 Scenario.fresh = (Ok (2, 3), Scenario.fresh)
  /\ 1 <= 2.
Proof.
  assert (files Scenario.fresh !! "a.sol" = Some Fixture.abc_def) as Hfile
    by (vm_compute; reflexivity).
  assert (get_source_location_by_offset "a.sol" 4 Scenario.fresh = (Ok (1, 0), Scenario.fresh)) as H4
    by (vm_compute; reflexivity).
  assert (get_source_location_by_offset "a.sol" 5 Scenario.fresh = (Ok (2, 3), Scenario.fresh)) as H5
    by (vm_compute; reflexivity).
  split; [exact H4 |]. split; [exact H5 |].
  exact (resolver_monotone Scenario.fresh "a.sol" Fixture.abc_def 4 5 1 0 2 3 Hfile
           ltac:(lia) H4 H5).
Defined.

Lemma resolver_position_determines_offset_witness :
  get_source_location_by_offset "a.sol" 5 Scenario.fresh = (Ok (2, 3), Scenario.fresh) /\ 5 = 5.
Proof.
  assert (files Scenario.fresh !! "a.sol" = Some Fixture.abc_def) as Hfile
    by (vm_compute; reflexivity).
  assert (get_source_location_by_offset "a.sol" 5 Scenario.fresh = (Ok (2, 3), Scenario.fresh)) as H5
    by (vm_compute; reflexivity).
  split; [exact H5 |].
  exact (resolver_position_determines_offset Scenario.fresh "a.sol" Fixture.abc_def 5 5 2 3
           Hfile H5 H5).
Defined.

Lemma resolver_negative_offset_witness :
  get_source_location_by_offset "a.sol" (-3) Scenario.fresh
  = (Ok (1, Py.len ("abc" +:+ Py.nl) - -3), Scenario.fresh)
  /\ Py.len ("abc" +:+ Py.nl) < Py.len ("abc" +:+ Py.nl) - -3.
Proof.
  apply (resolver_negative_offset Scenario.fresh "a.sol" Fixture.abc_def).
  - vm_compute. reflexivity.
  - reflexivity.
  - lia.
Defined.

Lemma resolver_end_of_file_witness :
  get_source_location_by_offset "a.sol" (Py.len Fixture.abc_def) Scenario.fresh
  = (Ok (Z.of_nat (length (Py.iter_lines Fixture.abc_def)), 0), Scenario.fresh).
Proof.
  apply (resolver_end_of_file Scenario.fresh "a.sol" Fixture.abc_def).
  - vm_compute. reflexivity.
  - discriminate.
Defined.

Lemma parse_config_missing_key_witness :
  parse_config Fixture.loads "pythx.json" true
    (Fixture.booted (Fixture.with_config Fixture.no_refresh))
  = (SysExit 1,
     logged (Fixture.booted (Fixture.with_config Fixture.no_refresh))
       [keys_diagnostic "pythx.json"]).
Proof.
  apply (parse_config_missing_key Fixture.loads _ "pythx.json"
           (Fixture.dumps Fixture.no_refresh) Fixture.no_refresh true).
  - vm_compute. reflexivity.
  - vm_compute. reflexivity.
  - reflexivity.
  - right. exists "refresh". split; [cbn; tauto | reflexivity].
Defined.

Lemma parse_config_missing_token_witness :
  parse_config Fixture.loads "pythx.json" true
    (Fixture.booted (Fixture.with_config Fixture.empty_access))
  = (SysExit 1,
     logged (Fixture.booted (Fixture.with_config Fixture.empty_access))
       [tokens_diagnostic "pythx.json"]).
Proof.
  apply (parse_config_missing_token Fixture.loads _ "pythx.json"
           (Fixture.dumps Fixture.empty_access)
           [("username", Py.VStr Fixture.alice); ("password", Py.VStr "trial");
            ("access", Py.VStr ""); ("refresh", Py.VStr "tok-r")]
           (Py.VStr "") (Py.VStr "tok-r")).
  - vm_compute. reflexivity.
  - vm_compute. reflexivity.
  - reflexivity.
  - reflexivity.
  - reflexivity.
  - reflexivity.
Defined.

Lemma recover_client_after_update_witness :
  (update_config Fixture.dumps "pythx.json" (Py.VStr Fixture.alice) (Py.VStr "trial")
     (Py.VStr "tok-a") (Py.VStr "tok-r");;
   recover_client Fixture.loads Fixture.dumps Fixture.login "pythx.json" false false) Scenario.fresh
  = (Ok (Some (Scenario.client Fixture.alice)),
     updated Fixture.dumps "pythx.json" (Py.VStr Fixture.alice) (Py.VStr "trial")
       (Py.VStr "tok-a") (Py.VStr "tok-r") Scenario.fresh).
Proof.
  apply (recover_client_after_update Fixture.loads Fixture.dumps Fixture.login Scenario.fresh
           "pythx.json" (Py.VStr Fixture.alice) (Py.VStr "trial") (Py.VStr "tok-a")
           (Py.VStr "tok-r") false false).
  - vm_compute. reflexivity.
  - reflexivity.
Defined.

Lemma recover_client_after_update_without_token_witness :
  (update_config Fixture.dumps "pythx.json" (Py.VStr Fixture.alice) (Py.VStr "trial")
     (Py.VStr "") (Py.VStr "tok-r");;
   recover_client Fixture.loads Fixture.dumps Fixture.login "pythx.json" false false) Scenario.fresh
  = (SysExit 1,
     logged (updated Fixture.dumps "pythx.json" (Py.VStr Fixture.alice) (Py.VStr "trial")
               (Py.VStr "") (Py.VStr "tok-r") Scenario.fresh)
       [tokens_diagnostic "pythx.json"]).
Proof.
  apply (recover_client_after_update_without_token Fixture.loads Fixture.dumps
           Fixture.login Scenario.fresh "pythx.json" (Py.VStr Fixture.alice) (Py.VStr "trial")
           (Py.VStr "") (Py.VStr "tok-r") false false).
  - vm_compute. reflexivity.
  - reflexivity.
Defined.

Lemma recover_client_from_environment_witness :
  recover_client Fixture.loads Fixture.dumps Scenario.login_ok "pythx.json" false false
    Scenario.unattended
  = (Ok (Some (Scenario.client Fixture.alice)),
     updated Fixture.dumps "pythx.json" (Py.VStr Fixture.alice) (Py.VStr "trial")
       (access_token (Scenario.client Fixture.alice))
       (refresh_token (Scenario.client Fixture.alice))
       (answered OpLogin tt Scenario.unattended)).
Proof.
  apply (recover_client_from_environment Fixture.loads Fixture.dumps Scenario.login_ok
           Scenario.unattended "pythx.json" Fixture.alice "trial").
  - vm_compute. reflexivity.
  - vm_compute. reflexivity.
  - discriminate.
  - vm_compute. reflexivity.
  - discriminate.
  - reflexivity.
Defined.

Lemma recover_client_defaults_witness :
  exists w1,
    recover_client Fixture.loads Fixture.dumps Scenario.login_ok "pythx.json" false false
      Scenario.attended
    = (Ok (Some (Scenario.client PLACEHOLDER)), w1)
    /\ keyboard w1 = []
    /\ files w1 !! "pythx.json"
       = Some (Fixture.dumps
                 (record_of (Py.VStr PLACEHOLDER) (Py.VStr "trial")
                    (access_token (Scenario.client PLACEHOLDER))
                    (refresh_token (Scenario.client PLACEHOLDER))))
    /\ trace w1 = trace Scenario.attended ++ [Prompted "Please enter your Ethereum address";
                                     Prompted "Please enter your MythX password";
                                     Called OpLogin].
Proof.
  apply (recover_client_defaults Fixture.loads Fixture.dumps Scenario.login_ok Scenario.attended
           "pythx.json" [] (Scenario.client PLACEHOLDER) tt false).
  - vm_compute. reflexivity.
  - vm_compute. reflexivity.
  - vm_compute. reflexivity.
  - reflexivity.
  - reflexivity.
Defined.

Lemma ps_few_analyses_witness :
  ps Fixture.loads Fixture.dumps Fixture.tabulate Fixture.login Fixture.analysis_list
    "pythx.json" false 20 Scenario.home
  = (Ok tt,
     logged (listed Fixture.dumps "pythx.json" (Scenario.client Fixture.alice) tt Scenario.home)
       [Echo (Fixture.tabulate [] (listing (analyses (mkAnalysisList Fixture.jobs))))]).
Proof.
  apply (ps_few_analyses Fixture.loads Fixture.dumps Fixture.tabulate Fixture.login
           Fixture.analysis_list Scenario.home Scenario.home (Scenario.client Fixture.alice)
           (Scenario.client Fixture.alice) (mkAnalysisList Fixture.jobs) tt
           "pythx.json" false 20).
  - vm_compute. reflexivity.
  - reflexivity.
  - reflexivity.
  - lia.
  - vm_compute. discriminate.
Defined.

Lemma ps_service_failure_witness :
  ps Fixture.loads Fixture.dumps Fixture.tabulate Fixture.login Scenario.list_down
    "pythx.json" false 20 Scenario.home
  = (Raise (Py.ServiceError "unreachable"), answered OpAnalysisList tt Scenario.home).
Proof.
  apply (ps_service_failure Fixture.loads Fixture.dumps Fixture.tabulate Fixture.login
           Scenario.list_down Scenario.home Scenario.home (Scenario.client Fixture.alice)).
  - vm_compute. reflexivity.
  - reflexivity.
  - reflexivity.
Defined.

Lemma ps_core_then_recover_witness :
  (ps_core Fixture.loads Fixture.dumps Fixture.login Fixture.analysis_list
     "pythx.json" false 20;;
   recover_client Fixture.loads Fixture.dumps Fixture.login "pythx.json" false false) Scenario.home
  = (Ok (Some (mkClient (eth_address (Scenario.client Fixture.alice))
                 (password (Scenario.client Fixture.alice))
                 (access_token (Scenario.client Fixture.alice))
                 (refresh_token (Scenario.client Fixture.alice)) false)),
     listed Fixture.dumps "pythx.json" (Scenario.client Fixture.alice) tt Scenario.home).
Proof.
  apply (ps_core_then_recover Fixture.loads Fixture.dumps Fixture.login
           Fixture.analysis_list Scenario.home Scenario.home (Scenario.client Fixture.alice)
           (Scenario.client Fixture.alice) (mkAnalysisList Fixture.jobs) tt
           "pythx.json" false 20).
  - vm_compute. reflexivity.
  - reflexivity.
  - reflexivity.
  - vm_compute. reflexivity.
  - reflexivity.
Defined.

Lemma aggregate_files_from_source_list_witness :
  aggregate ["a.sol"] [Fixture.finding] (mkLocals None None None) [] Scenario.home
  = (Ok [("a.sol", [(2, 3, Py.VStr "Reentrancy", Py.VStr "High",
                     Py.VStr "external call")])], Scenario.home)
  /\ "a.sol" ∈ ["a.sol"].
Proof.
  assert (aggregate ["a.sol"] [Fixture.finding] (mkLocals None None None) [] Scenario.home
          = (Ok [("a.sol", [(2, 3, Py.VStr "Reentrancy", Py.VStr "High",
                             Py.VStr "external call")])], Scenario.home)) as Hrun
    by (vm_compute; reflexivity).
  split; [exact Hrun |].
  refine (aggregate_files_from_source_list ["a.sol"] [Fixture.finding] Scenario.home _
            Scenario.home _ Hrun "a.sol" _).
  - discriminate.
  - cbn. left.
Defined.

Lemma report_all_or_nothing_witness :
  report Fixture.loads Fixture.dumps Fixture.tabulate Fixture.login Scenario.fetch_beyond
    "pythx.json" false "job-1" Scenario.home
  = (SysExit 1, logged (answered (OpReport "job-1") tt Scenario.home) [not_found "a.sol" 99])
  /\ files (logged (answered (OpReport "job-1") tt Scenario.home) [not_found "a.sol" 99])
     = files Scenario.home
  /\ exists events,
       trace (logged (answered (OpReport "job-1") tt Scenario.home) [not_found "a.sol" 99])
       = trace Scenario.home ++ Called (OpReport "job-1") :: events
       /\ Forall is_log_error events.
Proof.
  assert (report Fixture.loads Fixture.dumps Fixture.tabulate Fixture.login
            Scenario.fetch_beyond "pythx.json" false "job-1" Scenario.home
          = (SysExit 1, logged (answered (OpReport "job-1") tt Scenario.home)
                          [not_found "a.sol" 99])) as Hrun
    by (vm_compute; reflexivity).
  split; [exact Hrun |].
  refine (report_all_or_nothing Fixture.loads Fixture.dumps Fixture.tabulate
            Fixture.login Scenario.fetch_beyond Scenario.home Scenario.home (Scenario.client Fixture.alice)
            (Scenario.client Fixture.alice) _ tt "pythx.json" false "job-1" _ _
            _ _ Hrun _).
  - vm_compute. reflexivity.
  - reflexivity.
  - discriminate.
Defined.

Lemma report_offset_beyond_end_witness :
  report Fixture.loads Fixture.dumps Fixture.tabulate Fixture.login Scenario.fetch_beyond
    "pythx.json" false "job-1" Scenario.home
  = (SysExit 1, logged (answered (OpReport "job-1") tt Scenario.home) [not_found "a.sol" 99]).
Proof.
  apply (report_offset_beyond_end Fixture.loads Fixture.dumps Fixture.tabulate
           Fixture.login Scenario.fetch_beyond Scenario.home Scenario.home (Scenario.client Fixture.alice)
           (Scenario.client Fixture.alice) Scenario.far_issue [] ["a.sol"] tt
           "pythx.json" false "job-1" "99:1:0" [] "99" "1" "0" "a.sol" Fixture.abc_def
           0 99).
  - vm_compute. reflexivity.
  - reflexivity.
  - reflexivity.
  - reflexivity.
  - reflexivity.
  - reflexivity.
  - reflexivity.
  - vm_compute. reflexivity.
  - reflexivity.
Defined.

Lemma logout_without_file_witness :
  logout Fixture.loads Fixture.dumps Fixture.login Scenario.logout_ok "pythx.json" false
    Scenario.fresh
  = (SysExit 0, logged Scenario.fresh [Echo "You are already logged out."]).
Proof.
  apply (logout_without_file Fixture.loads Fixture.dumps Fixture.login Scenario.logout_ok
           Scenario.fresh "pythx.json" false).
  vm_compute. reflexivity.
Defined.

Lemma logout_twice_witness :
  (logout Fixture.loads Fixture.dumps Fixture.login Scenario.logout_ok "pythx.json" false;;
   logout Fixture.loads Fixture.dumps Fixture.login Scenario.logout_ok "pythx.json" false)
    Scenario.home
  = (SysExit 0,
     logged (served tt (removed "pythx.json" Scenario.home))
       [Echo "Successfully logged out"; Echo "You are already logged out."]).
Proof.
  apply (logout_twice Fixture.loads Fixture.dumps Fixture.login Scenario.logout_ok Scenario.home
           "pythx.json" (Fixture.dumps Fixture.registered)
           [("username", Py.VStr Fixture.alice); ("password", Py.VStr "trial");
            ("access", Py.VStr "tok-a"); ("refresh", Py.VStr "tok-r")]
           (Py.VStr Fixture.alice) (Py.VStr "trial") (Py.VStr "tok-a") (Py.VStr "tok-r")
           false tt).
  - vm_compute. reflexivity.
  - vm_compute. reflexivity.
  - reflexivity.
  - reflexivity.
  - reflexivity.
  - reflexivity.
  - reflexivity.
  - reflexivity.
Defined.

Lemma logout_remote_failure_witness :
  logout Fixture.loads Fixture.dumps Fixture.login Scenario.logout_down "pythx.json" false
    Scenario.home
  = (Raise (Py.ServiceError "unreachable"), served tt (removed "pythx.json" Scenario.home))
  /\ files (served tt (removed "pythx.json" Scenario.home)) !! "pythx.json" = None.
Proof.
  apply (logout_remote_failure Fixture.loads Fixture.dumps Fixture.login
           Scenario.logout_down Scenario.home "pythx.json" (Fixture.dumps Fixture.registered)
           [("username", Py.VStr Fixture.alice); ("password", Py.VStr "trial");
            ("access", Py.VStr "tok-a"); ("refresh", Py.VStr "tok-r")]
           (Py.VStr Fixture.alice) (Py.VStr "trial") (Py.VStr "tok-a") (Py.VStr "tok-r")
           false).
  - vm_compute. reflexivity.
  - vm_compute. reflexivity.
  - reflexivity.
  - reflexivity.
  - reflexivity.
  - reflexivity.
  - reflexivity.
  - reflexivity.
Defined.

Lemma logout_rejected_credentials_witness :
  logout Fixture.loads Fixture.dumps Fixture.login Scenario.logout_ok "pythx.json" false
    (Fixture.booted (Fixture.with_config Fixture.no_refresh))
  = (SysExit 1,
     logged (Fixture.booted (Fixture.with_config Fixture.no_refresh))
       [keys_diagnostic "pythx.json"]).
Proof.
  apply (logout_rejected_credentials Fixture.loads Fixture.dumps Fixture.login
           Scenario.logout_ok _ "pythx.json" (Fixture.dumps Fixture.no_refresh)
           Fixture.no_refresh false).
  - vm_compute. reflexivity.
  - vm_compute. reflexivity.
  - reflexivity.
  - reflexivity.
Defined.

Lemma login_first_use_logs_in_twice_witness :
  exists w2,
    login Fixture.loads Fixture.dumps Scenario.login_ok Scenario.str_of "pythx.json" false
      Scenario.unattended
    = (Ok tt, w2)
    /\ trace w2 = trace Scenario.unattended
                  ++ [Called OpLogin; Called OpLogin;
                      Echo ("Successfully logged in as "
                            +:+ Scenario.str_of
                                  (eth_address (Scenario.client Fixture.alice)))]
    /\ files w2 !! "pythx.json"
       = Some (Fixture.dumps
                 (record_of (eth_address (Scenario.client Fixture.alice))
                    (password (Scenario.client Fixture.alice))
                    (access_token (Scenario.client Fixture.alice))
                    (refresh_token (Scenario.client Fixture.alice))))
    /\ keyboard w2 = keyboard Scenario.unattended.
Proof.
  apply (login_first_use_logs_in_twice Fixture.loads Fixture.dumps Scenario.login_ok
           Scenario.str_of Scenario.unattended "pythx.json" Fixture.alice "trial"
           (Scenario.client Fixture.alice) tt (Scenario.client Fixture.alice) tt false).
  - vm_compute. reflexivity.
  - vm_compute. reflexivity.
  - discriminate.
  - vm_compute. reflexivity.
  - discriminate.
  - reflexivity.
  - reflexivity.
Defined.

Lemma login_failure_keeps_credentials_witness :
  login Fixture.loads Fixture.dumps Scenario.login_down Scenario.str_of "pythx.json" false Scenario.home
  = (Raise (Py.ServiceError "unreachable"), answered OpLogin tt Scenario.home)
  /\ files (answered OpLogin tt Scenario.home) !! "pythx.json"
     = Some (Fixture.dumps Fixture.registered).
Proof.
  apply (login_failure_keeps_credentials Fixture.loads Fixture.dumps Scenario.login_down
           Scenario.str_of Scenario.home "pythx.json" (Fixture.dumps Fixture.registered)
           [("username", Py.VStr Fixture.alice); ("password", Py.VStr "trial");
            ("access", Py.VStr "tok-a"); ("refresh", Py.VStr "tok-r")]
           (Py.VStr Fixture.alice) (Py.VStr "trial") (Py.VStr "tok-a") (Py.VStr "tok-r")
           false).
  - vm_compute. reflexivity.
  - vm_compute. reflexivity.
  - reflexivity.
  - reflexivity.
  - reflexivity.
  - reflexivity.
  - reflexivity.
  - reflexivity.
Defined.


Lemma parse_config_outcomes_witness :
  parse_config Fixture.loads "pythx.json" true Scenario.home
  = (Ok Fixture.registered, Scenario.home).
Proof.
  assert (files Scenario.home !! "pythx.json" = Some (Fixture.dumps Fixture.registered))
    as Hfile by (vm_compute; reflexivity).
  assert (Fixture.loads (Fixture.dumps Fixture.registered) = Some Fixture.registered)
    as Hjson by (vm_compute; reflexivity).
  destruct (parse_config_outcomes Fixture.loads Scenario.home "pythx.json" true)
    as [(Hnone & _)
       | [(text & Ht & Hl & _)
         | [(text & config & Ht & Hl & Hc & _)
           | [(text & config & Ht & Hl & Hc & Hbad & _)
             | [(text & d & a & r & Ht & Hl & _ & Ha & Hr & _ & Hfalsy & _)
               | (text & d & u & p & a & r & Ht & Hl & _ & _ & _ & _ & _ & Hout)]]]]].
  - congruence.
  - assert (text = Fixture.dumps Fixture.registered) as -> by congruence. congruence.
  - assert (text = Fixture.dumps Fixture.registered) as -> by congruence.
    assert (config = Fixture.registered) as -> by congruence. discriminate Hc.
  - assert (text = Fixture.dumps Fixture.registered) as -> by congruence.
    assert (config = Fixture.registered) as -> by congruence. discriminate Hbad.
  - assert (text = Fixture.dumps Fixture.registered) as -> by congruence.
    assert (Py.VDict d = Fixture.registered) as Hd by congruence.
    injection Hd as ->. vm_compute in Ha, Hr.
    injection Ha as <-. injection Hr as <-. discriminate Hfalsy.
  - assert (text = Fixture.dumps Fixture.registered) as -> by congruence.
    assert (Py.VDict d = Fixture.registered) as Hd by congruence.
    rewrite Hd in Hout. exact Hout.
Defined.

Lemma recover_client_existing_file_witness :
  recover_client Fixture.loads Fixture.dumps Fixture.login "pythx.json" false false
    Scenario.home
  = (Ok (Some (Scenario.client Fixture.alice)), Scenario.home).
Proof.
  assert (files Scenario.home !! "pythx.json" = Some (Fixture.dumps Fixture.registered))
    as Hfile by (vm_compute; reflexivity).
  assert (Fixture.loads (Fixture.dumps Fixture.registered) = Some Fixture.registered)
    as Hjson by (vm_compute; reflexivity).
  destruct (recover_client_existing_file Fixture.loads Fixture.dumps Fixture.login
              Scenario.home "pythx.json" (Fixture.dumps Fixture.registered) false false
              Hfile)
    as [(Hl & _)
       | [(config & Hl & Hc & _)
         | [(config & Hl & Hc & Hbad & _)
           | [(d & a & r & Hl & _ & Ha & Hr & Hfalsy & _)
             | (d & u & p & a & r & Hl & Hu & Hp & Ha & Hr & _ & Hout)]]]].
  - congruence.
  - assert (config = Fixture.registered) as -> by congruence. discriminate Hc.
  - assert (config = Fixture.registered) as -> by congruence. discriminate Hbad.
  - assert (Py.VDict d = Fixture.registered) as Hd by congruence.
    injection Hd as ->. vm_compute in Ha, Hr.
    injection Ha as <-. injection Hr as <-. discriminate Hfalsy.
  - assert (Py.VDict d = Fixture.registered) as Hd by congruence.
    injection Hd as ->. vm_compute in Hu, Hp, Ha, Hr.
    injection Hu as <-. injection Hp as <-. injection Ha as <-. injection Hr as <-.
    exact Hout.
Defined.

Lemma recover_client_first_use_witness :
  let run := recover_client Fixture.loads Fixture.dumps Scenario.login_ok "pythx.json"
               false false Scenario.typed in
  fst run = Ok (Some (Scenario.client Fixture.alice))
  /\ exists user keys pass,
       answer_for "PYTHX_USERNAME" PLACEHOLDER (environ Scenario.typed)
         (keyboard Scenario.typed) = Some (user, keys)
       /\ answer_for "PYTHX_PASSWORD" "trial" (environ Scenario.typed) keys
          = Some (pass, keyboard (snd run))
       /\ Scenario.login_ok
            (mkClient (Py.VStr user) (Py.VStr pass) Py.VNone Py.VNone false)
            (remote Scenario.typed)
          = (Ok (Scenario.client Fixture.alice), remote (snd run))
       /\ files (snd run)
          = <["pythx.json" := Fixture.dumps
                                (record_of (Py.VStr user) (Py.VStr pass)
                                   (access_token (Scenario.client Fixture.alice))
                                   (refresh_token (Scenario.client Fixture.alice)))]>
              (files Scenario.typed)
       /\ Called OpLogin ∈ trace (snd run).
Proof.
  cbv zeta.
  set (run := recover_client Fixture.loads Fixture.dumps Scenario.login_ok "pythx.json"
                false false Scenario.typed).
  assert (fst run = Ok (Some (Scenario.client Fixture.alice))) as Hfst
    by (vm_compute; reflexivity).
  split; [exact Hfst |].
  pose proof (recover_client_first_use Fixture.loads Fixture.dumps Scenario.login_ok
                Scenario.typed "pythx.json" false (fst run) (snd run)
                ltac:(vm_compute; reflexivity) (surjective_pairing run)) as Hspec.
  rewrite Hfst in Hspec. exact Hspec.
Defined.

Lemma report_without_source_list_witness :
  report Fixture.loads Fixture.dumps Fixture.tabulate Fixture.login
    Scenario.fetch_unmapped "pythx.json" false "job-1" Scenario.home
  = (Raise Py.UnboundLocalError, answered (OpReport "job-1") tt Scenario.home).
Proof.
  apply (report_without_source_list Fixture.loads Fixture.dumps Fixture.tabulate
           Fixture.login Scenario.fetch_unmapped Scenario.home Scenario.home
           (Scenario.client Fixture.alice) (Scenario.client Fixture.alice)
           Fixture.finding []).
  - vm_compute. reflexivity.
  - reflexivity.
Defined.

Lemma check_files_override_inline_witness :
  check Fixture.loads Fixture.dumps Scenario.login_ok Scenario.str_of Scenario.abspath
    Scenario.analyze "pythx.json" false (Some "0xdead") (Some "contract C {}")
    (Some "code.bin") (Some "a.sol") Scenario.desk
  = (Ok tt,
     updated Fixture.dumps "pythx.json" (eth_address (Scenario.client Fixture.alice))
       (password (Scenario.client Fixture.alice))
       (access_token (Scenario.client Fixture.alice))
       (refresh_token (Scenario.client Fixture.alice))
       (logged (served [(Some "0x6080", [("/work/a.sol", "abc" +:+ Py.nl +:+ "def")])]
                  Scenario.desk)
          [Echo ("Analysis submitted as job " +:+ Scenario.str_of (Py.VStr "job-7"))])).
Proof.
  apply (check_files_override_inline Fixture.loads Fixture.dumps Scenario.login_ok
           Scenario.str_of Scenario.abspath Scenario.analyze Scenario.desk Scenario.desk
           (Scenario.client Fixture.alice) (Scenario.client Fixture.alice)
           (Py.VStr "job-7") _ "pythx.json" false (Some "0xdead") (Some "contract C {}")
           "code.bin" "a.sol" (" 0x6080 " +:+ Py.nl) Fixture.abc_def).
  - vm_compute. reflexivity.
  - discriminate.
  - discriminate.
  - vm_compute. reflexivity.
  - vm_compute. reflexivity.
  - reflexivity.
Defined.

Example int_skips_white_space_beyond_ascii :
  Py.int (String "160" "4") = Some 4
  /\ Py.int (String "4" (String "133" "")) = Some 4
  /\ Py.int (String "4" (String "028" "")) = None.
Proof. repeat split; reflexivity. Qed.

Example universal_newlines_example :
  Py.iter_lines (PyText.universal_newlines
                   (String "a" (String "013" (String "b" (String "013" (String "010" ""))))))
  = ["a" +:+ Py.nl; "b" +:+ Py.nl].
Proof. reflexivity. Qed.
